(** * RHCSA examination platform: a model of the browser client

    The development follows the TypeScript sources of the front end:
    - [types.ts]: the data model (tasks, check results, engine status);
    - [constants.tsx]: the catalog [INITIAL_TASKS];
    - [services/dockerService.ts]: the HTTP client;
    - [App.tsx]: the task handler [handleTaskAction] and the start-up [init];
    - [components/Terminal.tsx]: the terminal component and its socket.

    The Flask back end ([app.py], [task_checkers.py]) is not among the
    sources; the three places where a statement needs it are modelled in
    the module [Backend], from the specification, and are marked as
    such. *)

From Stdlib Require Import ZArith List String Ascii Bool Lia FinFun.
From Stdlib Require Import Permutation.
From Stdlib Require Import Decimal DecimalString DecimalPos DecimalZ.
Import ListNotations.

Local Open Scope string_scope.
Local Open Scope Z_scope.

(** ** Numbers and strings *)

(** A template literal [`${n}`] on a JavaScript number that is an integer
    (task ids and exit codes are) prints its decimal digits, with a leading
    minus sign below zero. *)
Definition number_to_string (n : Z) : string :=
  NilZero.string_of_int (Z.to_int n).

(** The double quote and the escape character, which string literals
    cannot hold directly. *)
Definition dquote : string := String "034"%char "".
Definition esc : string := String "027"%char "".
Definition crlf : string := String "013"%char (String "010"%char "").

(** ** The data model ([types.ts]) *)

Inductive TaskStatus := IDLE | RUNNING | STOPPED | STARTING.
Inductive NodeGroup := NODE1 | NODE2.

Record CheckDetail := {
  name : string;
  passed : bool;
  message : string
}.

Inductive CheckStatus := PASS | FAIL | ERROR.

(** The field [status] of a [CheckResult] is called [result_status] here,
    since [status] is also a field of [Task]. *)
Record CheckResult := {
  result_status : CheckStatus;
  summary : string;
  details : list CheckDetail;
  timestamp : string
}.

Record Task := {
  id : Z;
  node : NodeGroup;
  title : string;
  instructions : string;
  status : TaskStatus;
  lastCheck : option CheckResult
}.

Record DockerStatus := {
  available : bool;
  version : option string;
  error : option string
}.

Definition TaskStatus_eqb (a b : TaskStatus) : bool :=
  match a, b with
  | IDLE, IDLE | RUNNING, RUNNING | STOPPED, STOPPED | STARTING, STARTING => true
  | _, _ => false
  end.

(** The spread [{ ...t, status: s }]. *)
Definition with_status (s : TaskStatus) (t : Task) : Task :=
  {| id := id t; node := node t; title := title t;
     instructions := instructions t; status := s; lastCheck := lastCheck t |}.

(** The spread [{ ...t, status: s, lastCheck: c }]. *)
Definition with_status_lastCheck (s : TaskStatus) (c : option CheckResult)
    (t : Task) : Task :=
  {| id := id t; node := node t; title := title t;
     instructions := instructions t; status := s; lastCheck := c |}.

(** The part of a task that the catalog fixes: the [Exercise] of the
    specification. *)
Definition exercise_of (t : Task) : Z * NodeGroup * string * string :=
  (id t, node t, title t, instructions t).

(** ** The catalog ([constants.tsx]) *)

Definition task (i : Z) (n : NodeGroup) (ttl ins : string) : Task :=
  {| id := i; node := n; title := ttl; instructions := ins;
     status := IDLE; lastCheck := None |}.

Definition INITIAL_TASKS : list Task := [
  task 1 NODE1 "Network Configuration"
    "Configure the network interface with IP address 192.168.122.10/24, gateway 192.168.122.1, and DNS 8.8.8.8. Set hostname to node1.example.com.";
  task 2 NODE1 "BaseOS/AppStream Repos"
    "Configure local yum repositories for BaseOS and AppStream. Use /mnt/BaseOS and /mnt/AppStream as sources.";
  task 3 NODE1 "SELinux Web Port"
    "Configure the Apache web server to run on port 82. Ensure SELinux allows this port.";
  task 4 NODE1 "Users & Group Creation"
    "Create a group named 'sysadmin'. Create users 'alice' and 'bob', and add them to the 'sysadmin' group.";
  task 5 NODE1 "Shared Directory"
    "Create a directory /home/shared. Ensure it is owned by the group 'sysadmin' and has g+rwx permissions. Implement setgid.";
  task 6 NODE1 "autofs NFS"
    "Configure autofs to automatically mount an NFS export from server.example.com:/export/home to /rhome/remote_user.";
  task 7 NODE1 "Cron Job"
    ("Create a cron job for user 'alice' that runs 'logger " ++ dquote
       ++ "Hello World" ++ dquote ++ "' every day at 14:23.");
  task 8 NODE1 "NTP Client"
    "Configure chronyd to sync with pool.ntp.org.";
  task 9 NODE1 "Find Files by Owner"
    "Find all files owned by user 'alice' in /etc and copy them to /root/alice_files/.";
  task 10 NODE1 "Find Strings"
    "Search for all lines containing 'rhcsa' in /usr/share/dict/words and save them to /root/lines.txt.";
  task 11 NODE1 "User with UID"
    "Create a user 'charlie' with UID 2000.";
  task 12 NODE1 "Archive Creation"
    "Create a bzip2 compressed tar archive of /etc named /root/etc.tar.bz2.";
  task 13 NODE1 "Container Service"
    "Run a podman container using the 'nginx' image and configure it as a systemd user service for user 'alice'.";
  task 14 NODE1 "Default Permissions"
    "Set the umask for all new users to 007.";
  task 15 NODE2 "Root Password"
    "Reset the root password to 'redhat'.";
  task 16 NODE2 "Repositories"
    "Configure YUM repositories for NODE2 using the provided URL.";
  task 17 NODE2 "Resize LV"
    "Resize the logical volume 'vo' to 300MB without losing data.";
  task 18 NODE2 "Swap Creation"
    "Add a 512MB swap partition to the system and ensure it persists across reboots.";
  task 19 NODE2 "Create LV"
    "Create a logical volume named 'data' in volume group 'vg0' with a size of 10 extents.";
  task 20 NODE2 "tuned profile"
    "Set the system tuned profile to 'virtual-guest'."
].

(** ** JSON values and HTTP exchanges *)

#[local] Unset Elimination Schemes.
Inductive Json :=
| JNull
| JBool (b : bool)
| JNumber (n : Z)
| JString (s : string)
| JArray (items : list Json)
| JObject (members : list (string * Json)).
#[local] Set Elimination Schemes.

Fixpoint member (k : string) (ms : list (string * Json)) : option Json :=
  match ms with
  | [] => None
  | (k', v) :: rest => if String.eqb k k' then Some v else member k rest
  end.

(** [data?.ok === true]: only an object whose member [ok] is the boolean
    [true] qualifies; [null], primitives and arrays have no such member. *)
Definition ok_is_true (data : Json) : bool :=
  match data with
  | JObject ms =>
      match member "ok" ms with
      | Some (JBool true) => true
      | _ => false
      end
  | _ => false
  end.

(** JavaScript truthiness of a parsed body: [null], [false], [0] and the
    empty string are falsy, everything else is truthy. *)
Definition js_truthy (data : Json) : bool :=
  match data with
  | JNull => false
  | JBool b => b
  | JNumber n => negb (n =? 0)
  | JString s => negb (String.eqb s "")
  | JArray _ => true
  | JObject _ => true
  end.

(** A value cast with [data as T]: the JSON value that it is at run time,
    and its view at the declared type. What the code does with the value
    as such (testing it with [||], dereferencing it) goes by [raw]; what
    it reads at the declared type goes by [view]. *)
Record Viewed (A : Type) := {
  raw : Json;
  view : A
}.
Arguments raw {A} v.
Arguments view {A} v.

(** A state cell set to a cast value, which may be [null]. *)
Definition nullable {A} (v : Viewed A) : option A :=
  match raw v with
  | JNull => None
  | _ => Some (view v)
  end.

Inductive Method := GET | POST.

Record Request := {
  method : Method;
  url : string
}.

(** The outcome of an awaited promise. *)
Inductive Promise (A : Type) :=
| Resolved (a : A)
| Rejected.
Arguments Resolved {A} a.
Arguments Rejected {A}.

(** What [fetch] yields: the flag [res.ok] and the outcome of [res.json()]
    (rejected when the body is not JSON). *)
Record Response := {
  ok : bool;
  json : Promise Json
}.

(** The network as the client sees it; [Rejected] is a failed [fetch]. *)
Definition Network := Request -> Promise Response.

(** ** The page state and the monad of asynchronous handlers ([App.tsx]) *)

(** The [useState] cells of [App] (the panel toggles, which no handler
    below reads, are left out). *)
Record AppState := {
  tasks : list Task;
  activeTaskId : option Z;
  dockerStatus : option DockerStatus;
  isLoading : bool;
  terminalClearKey : Z
}.

(** What a handler can touch: the page state, the log of the requests it
    has issued, and the task lists the page showed while the handler was
    suspended on a request. *)
Record World := {
  app : AppState;
  sent : list Request;
  shown : list (list Task)
}.

(** An [async] function: given the network, it transforms the world and
    either resolves with a value or rejects. What it did before rejecting
    stays done. A run in this monad is one handler from its call to its
    end, with no other handler in between; [handleTaskAction_begins] and
    [handleTaskAction_resumes] below give the two steps of the task
    handler apart, for the runs in which handlers overlap. *)
Definition Async (A : Type) : Type := Network -> World -> Promise A * World.

Definition ret {A} (a : A) : Async A := fun _ w => (Resolved a, w).

(** A [TypeError] thrown inside an [async] function. *)
Definition throw {A} : Async A := fun _ w => (Rejected, w).

Definition bind {A B} (m : Async A) (k : A -> Async B) : Async B :=
  fun net w =>
    match m net w with
    | (Resolved a, w') => k a net w'
    | (Rejected, w') => (Rejected, w')
    end.

Declare Scope async_scope.
Delimit Scope async_scope with async.
Notation "x <- m ;; k" := (bind m (fun x => k))
  (at level 61, m at next level, right associativity) : async_scope.
Notation "m ;; k" := (bind m (fun _ => k))
  (at level 61, right associativity) : async_scope.
Local Open Scope async_scope.

(** [try { body } catch (e) { handler }]. *)
Definition try_catch {A} (body handler : Async A) : Async A :=
  fun net w =>
    match body net w with
    | (Resolved a, w') => (Resolved a, w')
    | (Rejected, w') => handler net w'
    end.

(** [try { body } finally { final }], for a [body] that catches its own
    rejections. *)
Definition try_finally {A} (body : Async A) (final : Async unit) : Async A :=
  fun net w =>
    match body net w with
    | (r, w') => (r, snd (final net w'))
    end.

(** [Promise.all([m1, m2])]: both calls are started, so both issue their
    requests; the result rejects as soon as one of them does. *)
Definition promise_all {A B} (m1 : Async A) (m2 : Async B) : Async (A * B) :=
  fun net w =>
    match m1 net w with
    | (r1, w1) =>
        match m2 net w1 with
        | (r2, w2) =>
            (match r1, r2 with
             | Resolved a, Resolved b => Resolved (a, b)
             | _, _ => Rejected
             end, w2)
        end
    end.

(** [await fetch(url, { method })]: the request goes out, the handler is
    suspended and the page shows the state set so far. *)
Definition fetch (m : Method) (u : string) : Async Response :=
  fun net w =>
    let r := {| method := m; url := u |} in
    (net r, {| app := app w; sent := sent w ++ [r];
               shown := shown w ++ [tasks (app w)] |}).

(** [await res.json()]. *)
Definition res_json (res : Response) : Async Json :=
  fun _ w => (json res, w).

Definition getState {A} (f : AppState -> A) : Async A :=
  fun _ w => (Resolved (f (app w)), w).

Definition setState (f : AppState -> AppState) : Async unit :=
  fun _ w => (Resolved tt, {| app := f (app w); sent := sent w; shown := shown w |}).

Definition setTasks (f : list Task -> list Task) : Async unit :=
  setState (fun s => {| tasks := f (tasks s); activeTaskId := activeTaskId s;
                        dockerStatus := dockerStatus s; isLoading := isLoading s;
                        terminalClearKey := terminalClearKey s |}).

Definition setActiveTaskId (f : option Z -> option Z) : Async unit :=
  setState (fun s => {| tasks := tasks s; activeTaskId := f (activeTaskId s);
                        dockerStatus := dockerStatus s; isLoading := isLoading s;
                        terminalClearKey := terminalClearKey s |}).

Definition setDockerStatus (d : option DockerStatus) : Async unit :=
  setState (fun s => {| tasks := tasks s; activeTaskId := activeTaskId s;
                        dockerStatus := d; isLoading := isLoading s;
                        terminalClearKey := terminalClearKey s |}).

Definition setIsLoading (b : bool) : Async unit :=
  setState (fun s => {| tasks := tasks s; activeTaskId := activeTaskId s;
                        dockerStatus := dockerStatus s; isLoading := b;
                        terminalClearKey := terminalClearKey s |}).

Definition setTerminalClearKey (f : Z -> Z) : Async unit :=
  setState (fun s => {| tasks := tasks s; activeTaskId := activeTaskId s;
                        dockerStatus := dockerStatus s; isLoading := isLoading s;
                        terminalClearKey := f (terminalClearKey s) |}).

(** ** The HTTP client ([services/dockerService.ts]) and the handlers *)

Inductive Action := start | stop | reset | check.

(** The mutable locals of [handleTaskAction]. *)
Record Locals := {
  success : bool;
  newStatus : TaskStatus;
  checkResult : option CheckResult
}.

(** [!dockerStatus?.available] is false only for a status object whose
    flag is set. *)
Definition engine_available (d : option DockerStatus) : bool :=
  match d with
  | Some s => available s
  | None => false
  end.

(** [checkResult || t.lastCheck]: a truthy check result wins; [null], and
    any other falsy value that the response body was (the locals hold
    [None] for it), falls through to the old value. *)
Definition or_else (c old : option CheckResult) : option CheckResult :=
  match c with
  | Some r => Some r
  | None => old
  end.

(** [!activeTaskId]: [null] and [0] are falsy. *)
Definition falsy_id (i : option Z) : bool :=
  match i with
  | None => true
  | Some n => n =? 0
  end.

(** The locals as declared, which is also how the [catch] block leaves
    them: [success = false], [newStatus = IDLE], [checkResult = null]. *)
Definition untouched : Locals :=
  {| success := false; newStatus := IDLE; checkResult := None |}.

(** [t => t.id === taskId ? { ...t, status: TaskStatus.STARTING } : t]. *)
Definition mark_starting (taskId : Z) (t : Task) : Task :=
  if id t =? taskId then with_status STARTING t else t.

(** [t => t.id === taskId
         ? { ...t, status: newStatus, lastCheck: checkResult || t.lastCheck }
         : t]. *)
Definition commit (taskId : Z) (l : Locals) (t : Task) : Task :=
  if id t =? taskId
  then with_status_lastCheck (newStatus l)
         (or_else (checkResult l) (lastCheck t)) t
  else t.

Section Client.

(** The casts [data as DockerStatus], [data as Task[]] and
    [data as CheckResult] are unchecked at run time: each is the view of
    the JSON body at the declared type, whatever that view is. *)
Variable asDockerStatus : Json -> DockerStatus.
Variable asTasks : Json -> list Task.
Variable asCheckResult : Json -> CheckResult.

(** [const API = ''], the same origin. *)
Definition API : string := "".

Definition getDockerStatus : Async (Viewed DockerStatus) :=
  res <- fetch GET (API ++ "/api/docker/status") ;;
  data <- res_json res ;;
  ret {| raw := data; view := asDockerStatus data |}.

Definition getTasks : Async (Viewed (list Task)) :=
  res <- fetch GET (API ++ "/api/tasks") ;;
  data <- res_json res ;;
  ret {| raw := data; view := asTasks data |}.

Definition startContainer (taskId : Z) : Async bool :=
  res <- fetch POST (API ++ "/api/task/" ++ number_to_string taskId ++ "/start") ;;
  data <- res_json res ;;
  ret (ok res && ok_is_true data).

Definition stopContainer (taskId : Z) : Async bool :=
  res <- fetch POST (API ++ "/api/task/" ++ number_to_string taskId ++ "/stop") ;;
  data <- res_json res ;;
  ret (ok res && ok_is_true data).

Definition resetContainer (taskId : Z) : Async bool :=
  res <- fetch POST (API ++ "/api/task/" ++ number_to_string taskId ++ "/reset") ;;
  data <- res_json res ;;
  ret (ok res && ok_is_true data).

Definition checkTask (taskId : Z) : Async (Viewed CheckResult) :=
  res <- fetch POST (API ++ "/api/task/" ++ number_to_string taskId ++ "/check") ;;
  data <- res_json res ;;
  ret {| raw := data; view := asCheckResult data |}.

(** [taskList.length > 0]: reading [length] off [null] throws. *)
Definition length_positive (taskList : Viewed (list Task)) : Async bool :=
  match raw taskList with
  | JNull => throw
  | _ => ret (match view taskList with
              | [] => false
              | _ :: _ => true
              end)
  end.

(** [taskList[0].id]: reading [id] off a first element that is [null], or
    that is not there, throws. *)
Definition first_id (taskList : Viewed (list Task)) : Async Z :=
  match raw taskList, view taskList with
  | JArray (JNull :: _), _ => throw
  | _, first :: _ => ret (id first)
  | _, [] => throw
  end.

(** The start-up effect of [App]. *)
Definition init : Async unit :=
  try_finally
    (try_catch
       (both <- promise_all getDockerStatus getTasks ;;
        setDockerStatus (nullable (fst both)) ;;
        setTasks (fun _ => view (snd both)) ;;
        current <- getState activeTaskId ;;
        nonempty <- length_positive (snd both) ;;
        if nonempty && falsy_id current
        then (selected <- first_id (snd both) ;;
              setActiveTaskId (fun _ => Some selected))
        else ret tt)
       (setDockerStatus
          (Some {| available := false; version := None;
                   error := Some "Failed to load" |}) ;;
        setTasks (fun _ => [])))
    (setIsLoading false).

(** The [switch] inside the [try] block. Each case awaits its request
    before it assigns anything, so a rejection leaves the locals as they
    were initialised. *)
Definition perform (taskId : Z) (action : Action) : Async Locals :=
  match action with
  | start =>
      done <- startContainer taskId ;;
      ret {| success := done;
             newStatus := if done then RUNNING else IDLE;
             checkResult := None |}
  | stop =>
      done <- stopContainer taskId ;;
      ret {| success := done; newStatus := STOPPED; checkResult := None |}
  | reset =>
      done <- resetContainer taskId ;;
      ret {| success := done;
             newStatus := if done then RUNNING else IDLE;
             checkResult := None |}
  | check =>
      r <- checkTask taskId ;;
      ret {| success := true; newStatus := RUNNING;
             checkResult := if js_truthy (raw r) then Some (view r) else None |}
  end.

Definition handleTaskAction (taskId : Z) (action : Action) : Async unit :=
  engine <- getState dockerStatus ;;
  if negb (engine_available engine) then ret tt
  else
    match action with
    | start | stop | reset => setTerminalClearKey (fun k => k + 1)
    | check => ret tt
    end ;;
    setTasks (map (mark_starting taskId)) ;;
    l <- try_catch (perform taskId action) (ret untouched) ;;
    setTasks (map (commit taskId l)).

End Client.

(** A world in which nothing has been requested or shown yet. *)
Definition world_of (s : AppState) : World :=
  {| app := s; sent := []; shown := [] |}.

(** Every task list the page shows from the moment a handler is called
    on: those shown while it was suspended, then the one it leaves. *)
Definition observed (w : World) : list (list Task) :=
  shown w ++ [tasks (app w)].

(** The row of the task with id [i] in a task list ([tasks.find]). *)
Definition find_task (i : Z) (l : list Task) : option Task :=
  find (fun t => id t =? i) l.

(** The request behind each action, and what the [try] block of
    [handleTaskAction] leaves in the locals for each answer to it; the
    lemma [handleTaskAction_available] below shows that they describe
    the handler. *)
Definition action_name (a : Action) : string :=
  match a with
  | start => "start"
  | stop => "stop"
  | reset => "reset"
  | check => "check"
  end.

Definition request_for (taskId : Z) (a : Action) : Request :=
  {| method := POST;
     url := "/api/task/" ++ number_to_string taskId ++ "/" ++ action_name a |}.

(** [res.ok && data?.ok === true], with a failed [fetch] and a body that is
    not JSON counted as no success. *)
Definition succeeded (answer : Promise Response) : bool :=
  match answer with
  | Resolved res =>
      match json res with
      | Resolved data => ok res && ok_is_true data
      | Rejected => false
      end
  | Rejected => false
  end.

Definition settled (asCheckResult : Json -> CheckResult) (a : Action)
    (answer : Promise Response) : Locals :=
  match answer with
  | Resolved res =>
      match json res with
      | Resolved data =>
          match a with
          | start | reset =>
              {| success := ok res && ok_is_true data;
                 newStatus := if ok res && ok_is_true data then RUNNING else IDLE;
                 checkResult := None |}
          | stop =>
              {| success := ok res && ok_is_true data;
                 newStatus := STOPPED; checkResult := None |}
          | check =>
              {| success := true; newStatus := RUNNING;
                 checkResult := if js_truthy data
                                then Some (asCheckResult data) else None |}
          end
      | Rejected => untouched
      end
  | Rejected => untouched
  end.

(** ** The terminal component ([components/Terminal.tsx]) *)

Module Terminal.

(** Calls on the xterm instance. *)
Inductive TermOp :=
| Write (s : string)
| Writeln (s : string)
| Clear.

(** What the client emits on its socket. *)
Inductive ClientMsg :=
| terminal_connect (taskId : Z)
| terminal_input (taskId : Z) (data : string)
| terminal_resize (taskId : Z) (cols rows : Z).

(** What the server sends; every payload carries a [taskId]. *)
Inductive ServerMsg :=
| terminal_output (taskId : Z) (data : string)
| terminal_exit (taskId : Z) (code : Z)
| terminal_error (taskId : Z) (message : string).

Definition payload_taskId (m : ServerMsg) : Z :=
  match m with
  | terminal_output i _ | terminal_exit i _ | terminal_error i _ => i
  end.

(** The socket made by [io(...)]: whether it is connected, and the
    [taskId] its listeners closed over. *)
Record Socket := {
  connected : bool;
  taskId : Z
}.

(** The refs of the component, what it has emitted, how many sockets it
    has opened, and the props of the last render ([None] before the
    first one). *)
Record State := {
  xtermRef : option (list TermOp);
  socketRef : option Socket;
  connectedTaskIdRef : option Z;
  activeTaskRef : option Task;
  emitted : list ClientMsg;
  opened : nat;
  props : option (option Task * Z)
}.

Definition initial : State :=
  {| xtermRef := None; socketRef := None; connectedTaskIdRef := None;
     activeTaskRef := None; emitted := []; opened := 0%nat; props := None |}.

Definition set_xterm (x : option (list TermOp)) (st : State) : State :=
  {| xtermRef := x; socketRef := socketRef st;
     connectedTaskIdRef := connectedTaskIdRef st;
     activeTaskRef := activeTaskRef st; emitted := emitted st;
     opened := opened st; props := props st |}.

Definition set_activeTask (t : option Task) (st : State) : State :=
  {| xtermRef := xtermRef st; socketRef := socketRef st;
     connectedTaskIdRef := connectedTaskIdRef st;
     activeTaskRef := t; emitted := emitted st;
     opened := opened st; props := props st |}.

Definition set_props (p : option Task * Z) (st : State) : State :=
  {| xtermRef := xtermRef st; socketRef := socketRef st;
     connectedTaskIdRef := connectedTaskIdRef st;
     activeTaskRef := activeTaskRef st; emitted := emitted st;
     opened := opened st; props := Some p |}.

Definition set_socket (s : option Socket) (i : option Z) (n : nat)
    (st : State) : State :=
  {| xtermRef := xtermRef st; socketRef := s; connectedTaskIdRef := i;
     activeTaskRef := activeTaskRef st; emitted := emitted st;
     opened := n; props := props st |}.

Definition emit (m : ClientMsg) (st : State) : State :=
  {| xtermRef := xtermRef st; socketRef := socketRef st;
     connectedTaskIdRef := connectedTaskIdRef st;
     activeTaskRef := activeTaskRef st; emitted := emitted st ++ [m];
     opened := opened st; props := props st |}.

(** Calls on [xtermRef.current], guarded by its being non-null. *)
Definition term_do (ops : list TermOp) (st : State) : State :=
  match xtermRef st with
  | Some screen => set_xterm (Some (screen ++ ops)%list) st
  | None => st
  end.

Definition banner : list TermOp :=
  [ Writeln (esc ++ "[32mRHCSA Examination Platform Terminal" ++ esc ++ "[0m");
    Writeln "Select a task and click Start to connect to the container.";
    Write crlf ].

Definition prompt : string := "[root@node1 ~]# ".

(** [activeTask?.status === TaskStatus.RUNNING]. *)
Definition is_running (t : option Task) : bool :=
  match t with
  | Some a => TaskStatus_eqb (status a) RUNNING
  | None => false
  end.

(** [socketRef.current?.connected]. *)
Definition socket_connected (st : State) : bool :=
  match socketRef st with
  | Some s => connected s
  | None => false
  end.

(** [connectedTaskIdRef.current === i]. *)
Definition connected_to (i : Z) (st : State) : bool :=
  match connectedTaskIdRef st with
  | Some j => j =? i
  | None => false
  end.

(** The mount effect: creates the xterm instance and greets. The [div]
    that [terminalRef] points to is part of every render, so the effect
    never takes its early return. *)
Definition mountEffect (st : State) : State :=
  set_xterm (Some banner) st.

(** The effect that opens the socket, and its cleanup. *)
Definition connectEffect (activeTask : option Task) (st : State) : State :=
  match activeTask with
  | Some a =>
      if is_running activeTask
      then set_socket (Some {| connected := false; taskId := id a |})
             (Some (id a)) (S (opened st)) st
      else set_socket None None (opened st) st
  | None => set_socket None None (opened st) st
  end.

Definition connectCleanup (st : State) : State :=
  set_socket None None (opened st) st.

(** The effect on [clearKey]. *)
Definition clearEffect (clearKey : Z) (st : State) : State :=
  if 0 <? clearKey then term_do (Clear :: banner) st else st.

(** The effect that announces the geometry once the task runs; [fitted]
    is the size that [fit()] gives the terminal. *)
Definition resizeEffect (activeTask : option Task) (fitted : Z * Z)
    (st : State) : State :=
  match activeTask, xtermRef st with
  | Some a, Some _ =>
      if is_running activeTask && socket_connected st && connected_to (id a) st
      then emit (terminal_resize (id a) (fst fitted) (snd fitted)) st
      else st
  | _, _ => st
  end.

(** The listener on the window's [resize]. *)
Definition handleResize (fitted : Z * Z) (st : State) : State :=
  match xtermRef st, connectedTaskIdRef st with
  | Some _, Some i =>
      if socket_connected st
      then emit (terminal_resize i (fst fitted) (snd fitted)) st
      else st
  | _, _ => st
  end.

(** [term.onData]: the user typed [data]. *)
Definition onData (data : string) (st : State) : State :=
  match xtermRef st with
  | None => st
  | Some _ =>
      match activeTaskRef st with
      | Some currentTask =>
          if TaskStatus_eqb (status currentTask) RUNNING
          then
            if socket_connected st && connected_to (id currentTask) st
            then emit (terminal_input (id currentTask) data) st
            else term_do [Writeln (crlf ++ esc ++ "[33mConnecting..." ++ esc ++ "[0m")] st
          else term_do [Writeln (crlf ++ esc
                 ++ "[31mTerminal inactive. Please START the task container."
                 ++ esc ++ "[0m")] st
      | None =>
          term_do [Writeln (crlf ++ esc
            ++ "[31mTerminal inactive. Please START the task container."
            ++ esc ++ "[0m")] st
      end
  end.

(** The socket's own [connect] event. *)
Definition onConnect (st : State) : State :=
  match socketRef st with
  | Some s =>
      emit (terminal_connect (taskId s))
        (set_socket (Some {| connected := true; taskId := taskId s |})
           (connectedTaskIdRef st) (opened st) st)
  | None => st
  end.

(** The transport dropped; the listeners stay. *)
Definition onDisconnect (st : State) : State :=
  match socketRef st with
  | Some s =>
      set_socket (Some {| connected := false; taskId := taskId s |})
        (connectedTaskIdRef st) (opened st) st
  | None => st
  end.

(** The three listeners for server events. *)
Definition onMessage (m : ServerMsg) (st : State) : State :=
  match socketRef st with
  | None => st
  | Some s =>
      if payload_taskId m =? taskId s
      then
        match m with
        | terminal_output _ data => term_do [Write data] st
        | terminal_exit _ code =>
            term_do [Writeln (crlf ++ esc ++ "[33m[Process exited with code "
                                ++ number_to_string code ++ "]" ++ esc ++ "[0m");
                     Write prompt] st
        | terminal_error _ msg =>
            term_do [Writeln (crlf ++ esc ++ "[31m[Error] " ++ msg ++ esc ++ "[0m");
                     Write prompt] st
        end
      else st
  end.

(** The dependencies [[activeTask?.id, activeTask?.status]]. *)
Definition deps (t : option Task) : option Z * option TaskStatus :=
  (option_map id t, option_map status t).

Definition deps_eqb (a b : option Z * option TaskStatus) : bool :=
  match fst a, fst b with
  | Some i, Some j => i =? j
  | None, None => true
  | _, _ => false
  end
  &&
  match snd a, snd b with
  | Some x, Some y => TaskStatus_eqb x y
  | None, None => true
  | _, _ => false
  end.

(** A render with the given props. The first one runs every effect in
    the order of the file; a later one runs the cleanup and the effects
    whose dependencies changed. *)
Definition render (activeTask : option Task) (clearKey : Z) (fitted : Z * Z)
    (st : State) : State :=
  match props st with
  | None =>
      set_props (activeTask, clearKey)
        (resizeEffect activeTask fitted
           (clearEffect clearKey
              (connectEffect activeTask
                 (mountEffect
                    (set_activeTask activeTask st)))))
  | Some (oldTask, oldKey) =>
      let changed := negb (deps_eqb (deps oldTask) (deps activeTask)) in
      let st1 := if changed then connectCleanup st else st in
      let st2 := set_activeTask activeTask st1 in
      let st3 := if changed then connectEffect activeTask st2 else st2 in
      let st4 := if oldKey =? clearKey then st3 else clearEffect clearKey st3 in
      let st5 := if changed then resizeEffect activeTask fitted st4 else st4 in
      set_props (activeTask, clearKey) st5
  end.

(** What can happen to a mounted component. *)
Inductive Event :=
| Render (activeTask : option Task) (clearKey : Z) (fitted : Z * Z)
| Connect
| Disconnect
| Message (m : ServerMsg)
| Data (data : string)
| Resize (fitted : Z * Z).

Definition step (st : State) (e : Event) : State :=
  match e with
  | Render activeTask clearKey fitted => render activeTask clearKey fitted st
  | Connect => onConnect st
  | Disconnect => onDisconnect st
  | Message m => onMessage m st
  | Data data => onData data st
  | Resize fitted => handleResize fitted st
  end.

Definition run (events : list Event) : State :=
  fold_left step events initial.

End Terminal.

(** What every reachable state of the terminal component satisfies: a
    socket exists only for an active task that runs, its listeners and
    [connectedTaskIdRef] carry the id of that task, and [activeTaskRef]
    holds the active task of the last render. *)
Definition socket_matches_task (st : Terminal.State) : Prop :=
  match Terminal.socketRef st with
  | Some s =>
      Terminal.connectedTaskIdRef st = Some (Terminal.taskId s) /\
      exists a, Terminal.activeTaskRef st = Some a /\
                status a = RUNNING /\ id a = Terminal.taskId s
  | None => Terminal.connectedTaskIdRef st = None
  end.

Definition ref_follows_props (st : Terminal.State) : Prop :=
  match Terminal.props st with
  | Some p => Terminal.activeTaskRef st = fst p
  | None => Terminal.activeTaskRef st = None
  end.

Definition session_invariant (st : Terminal.State) : Prop :=
  socket_matches_task st /\ ref_follows_props st.

(** Two states with the same socket, connected id, active task and props. *)
Definition same_session (st st' : Terminal.State) : Prop :=
  Terminal.socketRef st' = Terminal.socketRef st /\
  Terminal.connectedTaskIdRef st' = Terminal.connectedTaskIdRef st /\
  Terminal.activeTaskRef st' = Terminal.activeTaskRef st /\
  Terminal.props st' = Terminal.props st.

(** ** The back end, as far as the statements below need it *)

Module Backend.

(** Modelled from the spec: the name of an exercise's container
    (ContainerHandle, section 3, and the naming convention of section 6),
    which is computed in [backend/app.py], not among the sources: a
    deterministic name [task-<id>] computed from the exercise id. (The
    README of the repository writes these names with a prefix, as
    [rhcsa-task-<id>]; no code among the sources names a container.) *)
Definition container_name (task_id : Z) : string :=
  "task-" ++ number_to_string task_id.

Section Checker.

(** The container engine and what a check needs from it. *)
Variable Engine : Type.
Variable is_running : Engine -> string -> bool.

(** A probe: its name, and the command it runs in a container, which
    yields a verdict with a message, or nothing when it could not be
    executed (engine error, timeout). *)
Record Probe := {
  probe_name : string;
  probe_exec : Engine -> string -> option (bool * string)
}.

Definition run_check (e : Engine) (container : string) (p : Probe)
    : CheckDetail :=
  match probe_exec p e container with
  | Some (verdict, msg) =>
      {| name := probe_name p; passed := verdict; message := msg |}
  | None =>
      {| name := probe_name p; passed := false;
         message := "Check could not be executed" |}
  end.

Definition passed_count (ds : list CheckDetail) : nat :=
  List.length (filter passed ds).

Definition aggregate (now : string) (ds : list CheckDetail) : CheckResult :=
  {| result_status := if forallb passed ds then PASS else FAIL;
     summary := number_to_string (Z.of_nat (passed_count ds)) ++ "/"
                ++ number_to_string (Z.of_nat (List.length ds))
                ++ " checks passed.";
     details := ds;
     timestamp := now |}.

(** Modelled from the spec: [runChecks] of the Checker Engine (section
    4.3), whose code ([backend/task_checkers.py]) is not among the
    sources. No registered checker and a container that is not running
    give [ERROR]; otherwise the probes run in their declared order, a
    probe that cannot execute counts as failed, the status is [PASS]
    when all probes passed and [FAIL] otherwise, the summary reads
    [k/n checks passed.] and the timestamp is taken at aggregation. *)
Definition runChecks (checkers : Z -> option (list Probe)) (e : Engine)
    (now : string) (task_id : Z) : CheckResult :=
  match checkers task_id with
  | None =>
      {| result_status := ERROR; summary := "No checker registered.";
         details := []; timestamp := now |}
  | Some probes =>
      if is_running e (container_name task_id)
      then aggregate now (map (run_check e (container_name task_id)) probes)
      else {| result_status := ERROR; summary := "Container is not running.";
              details := []; timestamp := now |}
  end.

End Checker.

Arguments probe_name {Engine} p.
Arguments probe_exec {Engine} p e container.
Arguments run_check {Engine} e container p.
Arguments runChecks {Engine} is_running checkers e now task_id.

(** The four states of a terminal session (section 4.2). *)
Inductive SessionState := Disconnected | Connecting | Attached | Closing.

(** One session of the bridge: its state, the exercises for which it has
    spawned a shell, what it has sent to the client, and what it has
    written to the shell's input. *)
Record Bridge := {
  session : SessionState;
  spawned : list Z;
  outbound : list Terminal.ServerMsg;
  shell_input : list string
}.

Definition idle_bridge : Bridge :=
  {| session := Disconnected; spawned := []; outbound := []; shell_input := [] |}.

(** Modelled from the spec: the attach request of the Terminal Session
    Bridge (section 4.2), whose code ([backend/app.py]) is not among the
    sources. The exercise must be Running; if it is not, an error event
    goes out at once and the session is back in [Disconnected] with no
    process spawned; if it is, a shell is spawned and the session is
    [Attached]. *)
Definition attach (status_of : Z -> TaskStatus) (x : Z) (b : Bridge) : Bridge :=
  match status_of x with
  | RUNNING =>
      {| session := Attached; spawned := spawned b ++ [x];
         outbound := outbound b; shell_input := shell_input b |}
  | _ =>
      {| session := Disconnected; spawned := spawned b;
         outbound := outbound b ++ [Terminal.terminal_error x "Container not running"];
         shell_input := shell_input b |}
  end.

(** Modelled from the spec: input on a session of the bridge (section
    4.2): bytes from the connection reach the shell verbatim while the
    session is [Attached], and nowhere otherwise. *)
Definition input (data : string) (b : Bridge) : Bridge :=
  match session b with
  | Attached =>
      {| session := Attached; spawned := spawned b; outbound := outbound b;
         shell_input := shell_input b ++ [data] |}
  | _ => b
  end.

End Backend.

(** ** The HTTP interface, as specified and as called *)

(** The endpoints in the words of the specification (section 6, External
    interfaces). *)
Definition spec_endpoint (r : Request) : Prop :=
  r = {| method := GET; url := "/engine/status" |} \/
  r = {| method := GET; url := "/exercises" |} \/
  exists i a,
    r = {| method := POST;
           url := "/exercises/" ++ number_to_string i ++ "/" ++ action_name a |}.

(** The endpoints that the client calls; they are the REST endpoints of the
    README's API documentation. *)
Definition api_endpoint (r : Request) : Prop :=
  r = {| method := GET; url := "/api/docker/status" |} \/
  r = {| method := GET; url := "/api/tasks" |} \/
  exists i a, r = request_for i a.

(** ** What the page derives from its state ([App.tsx]) *)

(** [tasks.find(t => t.id === activeTaskId) || null]. *)
Definition activeTask (s : AppState) : option Task :=
  match activeTaskId s with
  | Some i => find_task i (tasks s)
  | None => None
  end.

(** The [disabled] attributes of the Start, Stop and Verify buttons; the
    Reset button has none. *)
Definition start_disabled (t : Task) : bool :=
  TaskStatus_eqb (status t) RUNNING || TaskStatus_eqb (status t) STARTING.

Definition stop_disabled (t : Task) : bool :=
  negb (TaskStatus_eqb (status t) RUNNING).

Definition check_disabled (t : Task) : bool :=
  negb (TaskStatus_eqb (status t) RUNNING).

(** The props that [App] passes to the terminal:
    [<Terminal activeTask={activeTask} clearKey={terminalClearKey} />]. *)
Definition terminal_props (s : AppState) : option Task * Z :=
  (activeTask s, terminalClearKey s).

Definition NodeGroup_eqb (a b : NodeGroup) : bool :=
  match a, b with
  | NODE1, NODE1 | NODE2, NODE2 => true
  | _, _ => false
  end.

(** The task items of the registry panel, in the order they are rendered:
    the NODE1 tasks under the first header, the NODE2 tasks under the
    second. *)
Definition task_panel (ts : list Task) : list Task :=
  (filter (fun t => NodeGroup_eqb (node t) NODE1) ts
   ++ filter (fun t => NodeGroup_eqb (node t) NODE2) ts)%list.

(** The counts that the two headers of the registry panel display:
    [count={14}] and [count={6}]. *)
Definition header_count (g : NodeGroup) : nat :=
  match g with
  | NODE1 => 14%nat
  | NODE2 => 6%nat
  end.

(** The badge of a task item: [task.id < 10 ? `0${task.id}` : task.id]. *)
Definition id_label (t : Task) : string :=
  if id t <? 10 then "0" ++ number_to_string (id t)
  else number_to_string (id t).

(** The panel toggles of [App]. *)
Module Panels.

Record PanelState := {
  tasks : bool;
  instructions : bool;
  terminal : bool;
  results : bool
}.

(** [keyof PanelState]. *)
Inductive Panel := tasks_key | instructions_key | terminal_key | results_key.

(** The state used when local storage holds none. *)
Definition default : PanelState :=
  {| tasks := true; instructions := true; terminal := true; results := true |}.

(** [prev[panel]]. *)
Definition get (panel : Panel) (prev : PanelState) : bool :=
  match panel with
  | tasks_key => tasks prev
  | instructions_key => instructions prev
  | terminal_key => terminal prev
  | results_key => results prev
  end.

(** [prev => ({ ...prev, [panel]: !prev[panel] })]. *)
Definition togglePanel (panel : Panel) (prev : PanelState) : PanelState :=
  match panel with
  | tasks_key =>
      {| tasks := negb (tasks prev); instructions := instructions prev;
         terminal := terminal prev; results := results prev |}
  | instructions_key =>
      {| tasks := tasks prev; instructions := negb (instructions prev);
         terminal := terminal prev; results := results prev |}
  | terminal_key =>
      {| tasks := tasks prev; instructions := instructions prev;
         terminal := negb (terminal prev); results := results prev |}
  | results_key =>
      {| tasks := tasks prev; instructions := instructions prev;
         terminal := terminal prev; results := negb (results prev) |}
  end.

End Panels.

(** The body of an answer, as [await res.json()] yields it after
    [await fetch(...)]: rejected when the request failed or the body is not
    JSON. *)
Definition body_of (answer : Promise Response) : Promise Json :=
  match answer with
  | Resolved res => json res
  | Rejected => Rejected
  end.

(** The two requests of the start-up. *)
Definition status_request : Request :=
  {| method := GET; url := "/api/docker/status" |}.

Definition tasks_request : Request :=
  {| method := GET; url := "/api/tasks" |}.

(** Whether the [try] block of [init] throws on bodies that did arrive: on
    a task body that is [null] ([taskList.length]), and on one whose first
    element is [null] when the id of that element is read, which is when
    the loaded list is not empty and no task is selected yet. *)
Definition startup_throws (current : option Z) (taskBody : Json)
    (loaded : list Task) : bool :=
  match taskBody with
  | JNull => true
  | JArray (JNull :: _) =>
      match loaded with
      | [] => false
      | _ :: _ => falsy_id current
      end
  | _ => false
  end.

(** The engine status that the [catch] block of [init] sets. *)
Definition failed_to_load : DockerStatus :=
  {| available := false; version := None; error := Some "Failed to load" |}.

(** Strings without a slash: what a printed task id is, which is why the
    id and the action can be read back from a request path. *)
Fixpoint no_slash (s : string) : bool :=
  match s with
  | EmptyString => true
  | String c rest => negb (Ascii.eqb c "/") && no_slash rest
  end.

(** A response that grants a lifecycle request: it is ok and its body is an
    object whose member [ok] is the boolean [true]. *)
Definition grants (answer : Promise Response) : Prop :=
  exists res ms,
    answer = Resolved res /\ ok res = true /\
    json res = Resolved (JObject ms) /\ member "ok" ms = Some (JBool true).

(** The task a client message is about. *)
Definition message_taskId (m : Terminal.ClientMsg) : Z :=
  match m with
  | Terminal.terminal_connect i
  | Terminal.terminal_input i _
  | Terminal.terminal_resize i _ _ => i
  end.

(** A running active task has a socket. *)
Definition running_has_socket (st : Terminal.State) : Prop :=
  Terminal.is_running (Terminal.activeTaskRef st) = true ->
  Terminal.socketRef st <> None.

(** A connected socket has announced its task. *)
Definition connected_was_announced (st : Terminal.State) : Prop :=
  forall s, Terminal.socketRef st = Some s -> Terminal.connected s = true ->
            In (Terminal.terminal_connect (Terminal.taskId s)) (Terminal.emitted st).

(** In a list of client messages, every message comes after (or is) a
    [terminal:connect] for its own task. *)
Definition connect_comes_first (l : list Terminal.ClientMsg) : Prop :=
  forall pre m post,
    l = (pre ++ m :: post)%list ->
    In (Terminal.terminal_connect (message_taskId m)) (pre ++ [m]).

(** ** The task handler in its two steps

    [handleTaskAction] runs up to its [await], is suspended while its
    request is under way, and runs on when the answer is there. In between
    the page is live: other handlers can start and finish (the Reset button
    is never disabled), so the second step finds the task list that the
    page has by then. *)

(** Up to the [await]: the engine gate, the clear key and the loading mark;
    with the request that goes out, if one does. *)
Definition handleTaskAction_begins (taskId : Z) (action : Action)
    (s : AppState) : AppState * option Request :=
  if negb (engine_available (dockerStatus s)) then (s, None)
  else
    ({| tasks := map (mark_starting taskId) (tasks s);
        activeTaskId := activeTaskId s;
        dockerStatus := dockerStatus s;
        isLoading := isLoading s;
        terminalClearKey :=
          match action with
          | check => terminalClearKey s
          | _ => terminalClearKey s + 1
          end |},
     Some (request_for taskId action)).

(** From the answer on: the [try] block settles the locals, and the last
    [setTasks(prev => ...)] commits them to the task list of that moment. *)
Definition handleTaskAction_resumes (asCheckResult : Json -> CheckResult)
    (taskId : Z) (action : Action) (answer : Promise Response)
    (s : AppState) : AppState :=
  {| tasks := map (commit taskId (settled asCheckResult action answer)) (tasks s);
     activeTaskId := activeTaskId s;
     dockerStatus := dockerStatus s;
     isLoading := isLoading s;
     terminalClearKey := terminalClearKey s |}.

(** ** Sample data

    Concrete inputs on which the statements below are exercised. *)

(** The check result of the README's API example. *)
Definition sample_result : CheckResult :=
  {| result_status := PASS;
     summary := "2/2 checks passed.";
     details := [ {| name := "Hostname"; passed := true;
                     message := "Hostname is 'node1.example.com'" |};
                  {| name := "IP configuration"; passed := true;
                     message := "IP is 192.168.122.10" |} ];
     timestamp := "2026-02-01T09:33:08.312863+00:00" |}.

Definition sample_cast (_ : Json) : CheckResult := sample_result.

(** The catalog with task 1 in status [s], and the engine reported up or
    down. *)
Definition sample_state (s : TaskStatus) (engine_up : bool) : AppState :=
  {| tasks := map (fun t => if id t =? 1 then with_status s t else t) INITIAL_TASKS;
     activeTaskId := Some 1;
     dockerStatus := Some {| available := engine_up; version := Some "29.1.5";
                             error := None |};
     isLoading := false;
     terminalClearKey := 0 |}.

(** A back end that grants every request, one that refuses every request,
    and one that cannot be reached. *)
Definition net_ok : Network :=
  fun _ => Resolved {| ok := true;
                       json := Resolved (JObject [("ok", JBool true);
                                                  ("status", JString "running")]) |}.

Definition net_refused : Network :=
  fun _ => Resolved {| ok := false;
                       json := Resolved (JObject [("ok", JBool false);
                                                  ("status", JString "idle")]) |}.

Definition net_down : Network := fun _ => Rejected.

(** A back end that answers the engine-status request with a status object
    and every other request with an array of one object. *)
Definition net_catalog : Network :=
  fun r =>
    if String.eqb (url r) "/api/docker/status"
    then Resolved {| ok := true;
                     json := Resolved (JObject [("available", JBool true);
                                                ("version", JString "29.1.5")]) |}
    else Resolved {| ok := true; json := Resolved (JArray [JObject []]) |}.

Definition sample_engine (_ : Json) : DockerStatus :=
  {| available := true; version := Some "29.1.5"; error := None |}.

Definition sample_tasks (_ : Json) : list Task := INITIAL_TASKS.

(** The checker of the README's example for task 1, with a hostname that is
    right and an address that is not; the engine is a unit and every
    container runs. *)
Definition sample_probes : list (Backend.Probe unit) :=
  [ {| Backend.probe_name := "Hostname";
       Backend.probe_exec := fun _ _ =>
         Some (true, "Hostname is 'node1.example.com'") |};
    {| Backend.probe_name := "IP configuration";
       Backend.probe_exec := fun _ _ =>
         Some (false, "IP 192.168.122.10 not configured") |} ].

Definition sample_checkers (task_id : Z) : option (list (Backend.Probe unit)) :=
  if task_id =? 1 then Some sample_probes else None.

Definition all_running (_ : unit) (_ : string) : bool := true.

(** A task with id 1 in status [s], and a terminal whose active task it is,
    rendered once and then told that its socket connected. *)
Definition sample_task (s : TaskStatus) : Task :=
  with_status s (task 1 NODE1 "Network Configuration" "Configure the network.").

Definition sample_session (s : TaskStatus) : list Terminal.Event :=
  [Terminal.Render (Some (sample_task s)) 0 (80, 24); Terminal.Connect].

(** A shell prompt as the container prints it. *)
Definition prompt_sample : string := "[root@node1 /]# ".

(** A terminal rendered for the page [sample_state s up], whose socket then
    connected. *)
Definition sample_terminal (s : TaskStatus) (up : bool) : Terminal.State :=
  Terminal.run
    [Terminal.Render (activeTask (sample_state s up))
       (terminalClearKey (sample_state s up)) (80, 24);
     Terminal.Connect].

(** The first row of the catalog, in status [s]. *)
Definition sample_task_row (s : TaskStatus) : Task :=
  with_status s (task 1 NODE1 "Network Configuration"
    "Configure the network interface with IP address 192.168.122.10/24, gateway 192.168.122.1, and DNS 8.8.8.8. Set hostname to node1.example.com.").

(** * Properties *)

(** ** The task handler *)

Section HandlerFacts.

Variable asCheckResult : Json -> CheckResult.

(** With the engine reported unavailable the handler returns at its
    first line. *)
Lemma handleTaskAction_unavailable taskId action net w :
  engine_available (dockerStatus (app w)) = false ->
  handleTaskAction asCheckResult taskId action net w = (Resolved tt, w).
Proof.
  intros Hoff. unfold handleTaskAction, bind, getState.
  rewrite Hoff. reflexivity.
Qed.

(** Otherwise it marks the row as starting, issues the request of the
    action, and commits what the answer settles. *)
Lemma handleTaskAction_available taskId action net w :
  engine_available (dockerStatus (app w)) = true ->
  handleTaskAction asCheckResult taskId action net w =
    (Resolved tt,
     {| app :=
          {| tasks :=
               map (commit taskId
                      (settled asCheckResult action (net (request_for taskId action))))
                 (map (mark_starting taskId) (tasks (app w)));
             activeTaskId := activeTaskId (app w);
             dockerStatus := dockerStatus (app w);
             isLoading := isLoading (app w);
             terminalClearKey :=
               match action with
               | check => terminalClearKey (app w)
               | _ => terminalClearKey (app w) + 1
               end |};
        sent := sent w ++ [request_for taskId action];
        shown := shown w ++ [map (mark_starting taskId) (tasks (app w))] |}).
Proof.
  intros Hon. unfold handleTaskAction, bind, getState.
  rewrite Hon. cbn [negb].
  destruct action;
    unfold perform, startContainer, stopContainer, resetContainer, checkTask,
      try_catch, bind, fetch, res_json, ret, setTasks, setTerminalClearKey,
      setState, settled, request_for, action_name, API;
    cbn;
    (destruct (net _) as [res|]; cbn; [destruct (json res); cbn|]; reflexivity).
Qed.

End HandlerFacts.

(** Marking and committing touch one row and neither its identity nor its
    catalog fields. *)
Lemma exercise_of_mark_starting taskId t :
  exercise_of (mark_starting taskId t) = exercise_of t.
Proof. unfold mark_starting. destruct (id t =? taskId); reflexivity. Qed.

Lemma exercise_of_commit taskId l t :
  exercise_of (commit taskId l t) = exercise_of t.
Proof. unfold commit. destruct (id t =? taskId); reflexivity. Qed.

Lemma id_mark_starting taskId t : id (mark_starting taskId t) = id t.
Proof. unfold mark_starting. destruct (id t =? taskId); reflexivity. Qed.

Lemma lastCheck_mark_starting taskId t :
  lastCheck (mark_starting taskId t) = lastCheck t.
Proof. unfold mark_starting. destruct (id t =? taskId); reflexivity. Qed.

Lemma lastCheck_commit_no_result taskId l t :
  checkResult l = None ->
  lastCheck (commit taskId l t) = lastCheck t.
Proof.
  intros Hnone. unfold commit.
  destruct (id t =? taskId); cbn; [rewrite Hnone|]; reflexivity.
Qed.

Lemma commit_mark_starting taskId l t :
  commit taskId l (mark_starting taskId t) = commit taskId l t.
Proof.
  unfold commit, mark_starting.
  destruct (id t =? taskId) eqn:E; cbn; [rewrite E|rewrite E]; reflexivity.
Qed.

Lemma settled_lifecycle_no_result cast action answer :
  action <> check -> checkResult (settled cast action answer) = None.
Proof.
  intros Hlife. unfold settled.
  destruct answer as [res|]; [destruct (json res)|]; try reflexivity.
  destruct action; try reflexivity. congruence.
Qed.

(** ** Statements about [handleTaskAction] *)

(** C8. When the engine is reported unreachable ([dockerStatus] is null or
    its flag is false), every operation on an exercise (start, stop, reset,
    check) does nothing: no request is issued, nothing new is shown, and
    the page state, with every status and every lastCheck, is as before. *)
Theorem unreachable_engine_no_operation cast taskId action net w :
  engine_available (dockerStatus (app w)) = false ->
  let w' := snd (handleTaskAction cast taskId action net w) in
  sent w' = sent w /\ shown w' = shown w /\ app w' = app w.
Proof.
  intros Hoff. cbv zeta.
  rewrite (handleTaskAction_unavailable cast taskId action net w Hoff).
  cbn. repeat split.
Qed.

Lemma unreachable_engine_no_operation_witness :
  engine_available (dockerStatus (app (world_of (sample_state RUNNING false)))) = false /\
  sent (snd (handleTaskAction sample_cast 1 check net_ok
               (world_of (sample_state RUNNING false)))) = [] /\
  shown (snd (handleTaskAction sample_cast 1 check net_ok
                (world_of (sample_state RUNNING false)))) = [] /\
  app (snd (handleTaskAction sample_cast 1 check net_ok
              (world_of (sample_state RUNNING false)))) = sample_state RUNNING false.
Proof.
  split; [reflexivity|].
  apply (unreachable_engine_no_operation sample_cast 1 check net_ok
           (world_of (sample_state RUNNING false))).
  reflexivity.
Defined.

(** C9. A lifecycle operation (start, stop, reset) never modifies a
    lastCheck: whatever the back end answers, and whether the call succeeds
    or fails, every task list shown during the call and the one it leaves
    carry the lastCheck column they had before. Only a check can replace a
    lastCheck. *)
Theorem lifecycle_preserves_lastCheck cast taskId action net w :
  action <> check ->
  let w' := snd (handleTaskAction cast taskId action net w) in
  map lastCheck (tasks (app w')) = map lastCheck (tasks (app w)) /\
  exists during,
    shown w' = (shown w ++ during)%list /\
    Forall (fun l => map lastCheck l = map lastCheck (tasks (app w))) during.
Proof.
  intros Hlife. cbv zeta.
  destruct (engine_available (dockerStatus (app w))) eqn:Hengine.
  - rewrite (handleTaskAction_available cast taskId action net w Hengine). cbn.
    assert (Hmark : map lastCheck (map (mark_starting taskId) (tasks (app w)))
                    = map lastCheck (tasks (app w))).
    { rewrite map_map. apply map_ext. intros t. apply lastCheck_mark_starting. }
    split.
    + rewrite !map_map. apply map_ext. intros t.
      rewrite lastCheck_commit_no_result
        by (apply settled_lifecycle_no_result; exact Hlife).
      apply lastCheck_mark_starting.
    + eexists. split; [reflexivity|]. constructor; [exact Hmark|constructor].
  - rewrite (handleTaskAction_unavailable cast taskId action net w Hengine). cbn.
    split; [reflexivity|]. exists []. split; [symmetry; apply app_nil_r|constructor].
Qed.

Lemma lifecycle_preserves_lastCheck_witness :
  reset <> check /\
  map lastCheck
    (tasks (app (snd (handleTaskAction sample_cast 1 reset net_refused
                        (world_of (sample_state RUNNING true))))))
  = map lastCheck (tasks (sample_state RUNNING true)).
Proof.
  split; [discriminate|].
  apply (lifecycle_preserves_lastCheck sample_cast 1 reset net_refused
           (world_of (sample_state RUNNING true))).
  discriminate.
Defined.




(** Counterexample to C6 as stated. Task 1 is Stopped, the engine is up and
    the back end refuses the reset: the operation ends with task 1 Idle,
    not Running. *)
Lemma refused_reset_ends_idle :
  ~ (forall t,
       find_task 1 (tasks (app (snd (handleTaskAction sample_cast 1 reset net_refused
                                       (world_of (sample_state STOPPED true))))))
       = Some t ->
       status t = RUNNING).
Proof.
  intros Hclaim.
  assert (Hbad : IDLE = RUNNING); [|discriminate Hbad].
  apply (Hclaim (with_status IDLE (task 1 NODE1 "Network Configuration"
    "Configure the network interface with IP address 192.168.122.10/24, gateway 192.168.122.1, and DNS 8.8.8.8. Set hostname to node1.example.com."))).
  reflexivity.
Qed.

(** C6, amended. With the engine reported available, and whatever the prior
    status of the exercise (Idle, Starting, Running or Stopped), a reset
    ends with status Running when its request succeeds (the response is ok
    and its body says ok) and with status Idle when it does not; the list
    of exercises is the same as before. *)
Theorem reset_ends_running_when_granted cast taskId net w :
  engine_available (dockerStatus (app w)) = true ->
  let w' := snd (handleTaskAction cast taskId reset net w) in
  map id (tasks (app w')) = map id (tasks (app w)) /\
  forall t, In t (tasks (app w')) -> id t = taskId ->
    status t = if succeeded (net (request_for taskId reset)) then RUNNING else IDLE.
Proof.
  intros Hengine. cbv zeta.
  rewrite (handleTaskAction_available cast taskId reset net w Hengine). cbn.
  split.
  - rewrite !map_map. apply map_ext. intros t.
    rewrite commit_mark_starting. unfold commit.
    destruct (id t =? taskId); reflexivity.
  - intros t Hin Hid.
    rewrite map_map in Hin. apply in_map_iff in Hin.
    destruct Hin as [t0 [Heq _]]. subst t.
    rewrite commit_mark_starting in *. unfold commit in *.
    destruct (id t0 =? taskId) eqn:Hrow.
    + cbn. unfold settled, succeeded.
      destruct (net (request_for taskId reset)) as [res|]; [|reflexivity].
      destruct (json res); reflexivity.
    + apply Z.eqb_neq in Hrow. contradiction.
Qed.

Lemma reset_ends_running_when_granted_witness :
  engine_available (dockerStatus (app (world_of (sample_state STOPPED true)))) = true /\
  map id (tasks (app (snd (handleTaskAction sample_cast 1 reset net_ok
                             (world_of (sample_state STOPPED true))))))
  = map id (tasks (sample_state STOPPED true)) /\
  forall t,
    In t (tasks (app (snd (handleTaskAction sample_cast 1 reset net_ok
                             (world_of (sample_state STOPPED true)))))) ->
    id t = 1 -> status t = RUNNING.
Proof.
  split; [reflexivity|].
  exact (reset_ends_running_when_granted sample_cast 1 net_ok
           (world_of (sample_state STOPPED true)) eq_refl).
Defined.

(** ** The catalog *)

Lemma handleTaskAction_keeps_exercises cast taskId action net w l :
  In l (observed (snd (handleTaskAction cast taskId action net w))) ->
  In l (shown w) \/ map exercise_of l = map exercise_of (tasks (app w)).
Proof.
  unfold observed.
  destruct (engine_available (dockerStatus (app w))) eqn:Hengine.
  - rewrite (handleTaskAction_available cast taskId action net w Hengine). cbn.
    rewrite !in_app_iff. cbn.
    assert (Hmark : map exercise_of (map (mark_starting taskId) (tasks (app w)))
                    = map exercise_of (tasks (app w))).
    { rewrite map_map. apply map_ext. intros t. apply exercise_of_mark_starting. }
    intros [[Hold | [Hmid | []]] | [Hend | []]]; subst.
    + left. exact Hold.
    + right. exact Hmark.
    + right. rewrite !map_map. apply map_ext. intros t.
      rewrite exercise_of_commit. apply exercise_of_mark_starting.
  - rewrite (handleTaskAction_unavailable cast taskId action net w Hengine). cbn.
    rewrite in_app_iff. cbn.
    intros [Hold | [Hend | []]]; subst; [left; exact Hold | right; reflexivity].
Qed.

(** C2. The catalog holds exactly 20 records; their ids are 1, 2, ..., 20
    in this order, hence unique and within 1..20, and each id of 1..20 has
    exactly one record; every record's group is NODE1 or NODE2. The table is
    never mutated: every task list that the page shows during and after an
    operation started from the catalog carries the catalog's id, group,
    title and instructions, row by row. *)
Theorem catalog_has_twenty_unique_exercises :
  List.length INITIAL_TASKS = 20%nat /\
  map id INITIAL_TASKS = map Z.of_nat (seq 1 20) /\
  NoDup (map id INITIAL_TASKS) /\
  (forall t, In t INITIAL_TASKS -> 1 <= id t <= 20) /\
  (forall i, 1 <= i <= 20 ->
     List.length (filter (fun t => id t =? i) INITIAL_TASKS) = 1%nat) /\
  (forall t, In t INITIAL_TASKS -> node t = NODE1 \/ node t = NODE2) /\
  (forall cast taskId action net s l,
     tasks s = INITIAL_TASKS ->
     In l (observed (snd (handleTaskAction cast taskId action net (world_of s)))) ->
     map exercise_of l = map exercise_of INITIAL_TASKS).
Proof.
  assert (Hids : map id INITIAL_TASKS = map Z.of_nat (seq 1 20)) by reflexivity.
  split; [reflexivity|].
  split; [exact Hids|].
  split.
  { rewrite Hids. apply Injective_map_NoDup.
    - intros a b Hab. apply Nat2Z.inj. exact Hab.
    - apply seq_NoDup. }
  split.
  { intros t Hin. apply (in_map id) in Hin. rewrite Hids in Hin.
    apply in_map_iff in Hin. destruct Hin as [n [Hn Hseq]].
    apply in_seq in Hseq. lia. }
  split.
  { intros i Hi.
    assert (Hcases : i = 1 \/ i = 2 \/ i = 3 \/ i = 4 \/ i = 5 \/ i = 6 \/ i = 7
                     \/ i = 8 \/ i = 9 \/ i = 10 \/ i = 11 \/ i = 12 \/ i = 13
                     \/ i = 14 \/ i = 15 \/ i = 16 \/ i = 17 \/ i = 18 \/ i = 19
                     \/ i = 20) by lia.
    repeat (destruct Hcases as [-> | Hcases]; [reflexivity|]).
    subst i. reflexivity. }
  split.
  { intros t _. destruct (node t); [left | right]; reflexivity. }
  intros cast taskId action net s l Hs Hin.
  apply handleTaskAction_keeps_exercises in Hin. cbn in Hin.
  destruct Hin as [[] | Hin]. rewrite Hin, Hs. reflexivity.
Qed.

Lemma catalog_has_twenty_unique_exercises_witness :
  tasks (sample_state IDLE true) = INITIAL_TASKS /\
  map exercise_of
    (tasks (app (snd (handleTaskAction sample_cast 7 stop net_ok
                        (world_of (sample_state IDLE true))))))
  = map exercise_of INITIAL_TASKS.
Proof.
  split; [reflexivity|].
  apply (proj2 (proj2 (proj2 (proj2 (proj2 (proj2
           catalog_has_twenty_unique_exercises)))))
           sample_cast 7 stop net_ok (sample_state IDLE true)).
  - reflexivity.
  - unfold observed. apply in_or_app. right. left. reflexivity.
Defined.

(** ** The HTTP client *)

(** Each service function issues one request, whatever comes back. *)
Ltac one_request :=
  intros; unfold bind, fetch, res_json, ret, API; cbn;
  match goal with
  | |- context [match ?net ?r with _ => _ end] =>
      destruct (net r) as [res|]; cbn; [destruct (json res); cbn|]; reflexivity
  end.

Lemma getDockerStatus_world cast net w :
  snd (getDockerStatus cast net w) =
    {| app := app w;
       sent := sent w ++ [{| method := GET; url := "/api/docker/status" |}];
       shown := shown w ++ [tasks (app w)] |}.
Proof. unfold getDockerStatus. one_request. Qed.

Lemma getTasks_world cast net w :
  snd (getTasks cast net w) =
    {| app := app w;
       sent := sent w ++ [{| method := GET; url := "/api/tasks" |}];
       shown := shown w ++ [tasks (app w)] |}.
Proof. unfold getTasks. one_request. Qed.

Lemma startContainer_world taskId net w :
  snd (startContainer taskId net w) =
    {| app := app w; sent := sent w ++ [request_for taskId start];
       shown := shown w ++ [tasks (app w)] |}.
Proof. unfold startContainer, request_for, action_name. one_request. Qed.

Lemma stopContainer_world taskId net w :
  snd (stopContainer taskId net w) =
    {| app := app w; sent := sent w ++ [request_for taskId stop];
       shown := shown w ++ [tasks (app w)] |}.
Proof. unfold stopContainer, request_for, action_name. one_request. Qed.

Lemma resetContainer_world taskId net w :
  snd (resetContainer taskId net w) =
    {| app := app w; sent := sent w ++ [request_for taskId reset];
       shown := shown w ++ [tasks (app w)] |}.
Proof. unfold resetContainer, request_for, action_name. one_request. Qed.

Lemma checkTask_world cast taskId net w :
  snd (checkTask cast taskId net w) =
    {| app := app w; sent := sent w ++ [request_for taskId check];
       shown := shown w ++ [tasks (app w)] |}.
Proof. unfold checkTask, request_for, action_name. one_request. Qed.

(** Case analysis on what [init] inspects: the task body, the loaded list
    and the selected id. *)
Ltac by_cases_of_init :=
  repeat (cbn;
          match goal with
          | |- context [match ?x with _ => _ end] => is_var x; destruct x
          | |- context [falsy_id ?x] => destruct (falsy_id x)
          end);
  cbn; rewrite <- ?app_assoc; reflexivity.

(** The start-up issues the two [GET] requests, in this order, also when
    the first one fails. *)
Lemma init_sent c1 c2 net w :
  sent (snd (init c1 c2 net w)) =
    (sent w ++ [{| method := GET; url := "/api/docker/status" |};
                {| method := GET; url := "/api/tasks" |}])%list.
Proof.
  unfold init, try_finally, try_catch, promise_all, bind.
  pose proof (getDockerStatus_world c1 net w) as H1.
  destruct (getDockerStatus c1 net w) as [r1 w1]. cbn in H1. subst w1.
  match goal with
  | |- context [getTasks c2 net ?w0] =>
      pose proof (getTasks_world c2 net w0) as H2;
      destruct (getTasks c2 net w0) as [r2 w2]
  end.
  cbn in H2. subst w2.
  destruct r1 as [status|], r2 as [taskList|]; cbn;
    try (rewrite <- app_assoc; reflexivity).
  unfold length_positive, first_id, throw, ret, setActiveTaskId, setState.
  destruct taskList as [data loaded]. cbn.
  by_cases_of_init.
Qed.

(** Counterexample to C5 as stated. The engine-status request and the start
    request that the client issues go to [/api/docker/status] and
    [/api/task/1/start], neither of which is among the paths of the
    specification. *)
Lemma client_requests_leave_spec_paths :
  ~ Forall spec_endpoint
      (sent (snd (getDockerStatus sample_engine net_ok
                    (world_of (sample_state IDLE true))))) /\
  ~ Forall spec_endpoint
      (sent (snd (handleTaskAction sample_cast 1 start net_ok
                    (world_of (sample_state IDLE true))))).
Proof.
  split; intros Hall; apply Forall_inv in Hall;
    destruct Hall as [Heq | [Heq | [i [a Heq]]]];
    discriminate Heq.
Qed.

(** C5, amended. The client talks to the core through [GET
    /api/docker/status], [GET /api/tasks], [POST /api/task/<id>/start],
    [.../stop], [.../reset] and [POST /api/task/<id>/check]: each service
    function issues exactly one request, to its own endpoint; the start-up
    issues the engine-status and the task-list request; a task action
    issues the request of that action when the engine is reported
    available and none otherwise. *)
Theorem client_requests_go_to_api_endpoints :
  (forall cast net w,
     sent (snd (getDockerStatus cast net w)) =
       (sent w ++ [{| method := GET; url := "/api/docker/status" |}])%list) /\
  (forall cast net w,
     sent (snd (getTasks cast net w)) =
       (sent w ++ [{| method := GET; url := "/api/tasks" |}])%list) /\
  (forall taskId net w,
     sent (snd (startContainer taskId net w)) =
       (sent w ++ [{| method := POST;
                      url := "/api/task/" ++ number_to_string taskId ++ "/start" |}])%list) /\
  (forall taskId net w,
     sent (snd (stopContainer taskId net w)) =
       (sent w ++ [{| method := POST;
                      url := "/api/task/" ++ number_to_string taskId ++ "/stop" |}])%list) /\
  (forall taskId net w,
     sent (snd (resetContainer taskId net w)) =
       (sent w ++ [{| method := POST;
                      url := "/api/task/" ++ number_to_string taskId ++ "/reset" |}])%list) /\
  (forall cast taskId net w,
     sent (snd (checkTask cast taskId net w)) =
       (sent w ++ [{| method := POST;
                      url := "/api/task/" ++ number_to_string taskId ++ "/check" |}])%list) /\
  (forall c1 c2 net w,
     sent (snd (init c1 c2 net w)) =
       (sent w ++ [{| method := GET; url := "/api/docker/status" |};
                   {| method := GET; url := "/api/tasks" |}])%list) /\
  (forall cast taskId action net w,
     sent (snd (handleTaskAction cast taskId action net w)) =
       (sent w ++ if engine_available (dockerStatus (app w))
                  then [{| method := POST;
                           url := "/api/task/" ++ number_to_string taskId
                                    ++ "/" ++ action_name action |}]
                  else [])%list) /\
  (forall c1 c2 cast taskId action net s r,
     In r (sent (snd (init c1 c2 net (world_of s)))) \/
     In r (sent (snd (handleTaskAction cast taskId action net (world_of s)))) ->
     api_endpoint r).
Proof.
  assert (Hhandle : forall cast taskId action net w,
     sent (snd (handleTaskAction cast taskId action net w)) =
       (sent w ++ if engine_available (dockerStatus (app w))
                  then [request_for taskId action] else [])%list).
  { intros cast taskId action net w.
    destruct (engine_available (dockerStatus (app w))) eqn:Hengine.
    - rewrite (handleTaskAction_available cast taskId action net w Hengine).
      reflexivity.
    - rewrite (handleTaskAction_unavailable cast taskId action net w Hengine).
      cbn. symmetry. apply app_nil_r. }
  repeat split.
  - intros. rewrite getDockerStatus_world. reflexivity.
  - intros. rewrite getTasks_world. reflexivity.
  - intros. rewrite startContainer_world. reflexivity.
  - intros. rewrite stopContainer_world. reflexivity.
  - intros. rewrite resetContainer_world. reflexivity.
  - intros. rewrite checkTask_world. reflexivity.
  - intros. apply init_sent.
  - intros. apply Hhandle.
  - intros c1 c2 cast taskId action net s r [Hin | Hin].
    + rewrite init_sent in Hin. cbn in Hin.
      destruct Hin as [<- | [<- | []]]; [left | right; left]; reflexivity.
    + rewrite Hhandle in Hin. cbn in Hin.
      destruct (engine_available (dockerStatus s)); cbn in Hin.
      * destruct Hin as [<- | []]. right. right. exists taskId, action. reflexivity.
      * destruct Hin.
Qed.

Lemma client_requests_go_to_api_endpoints_witness :
  In {| method := POST; url := "/api/task/1/check" |}
     (sent (snd (handleTaskAction sample_cast 1 check net_ok
                   (world_of (sample_state RUNNING true))))) /\
  api_endpoint {| method := POST; url := "/api/task/1/check" |}.
Proof.
  split; [left; reflexivity|].
  apply (proj2 (proj2 (proj2 (proj2 (proj2 (proj2 (proj2 (proj2
           client_requests_go_to_api_endpoints)))))))
           sample_engine sample_tasks sample_cast 1 check net_ok
           (sample_state RUNNING true)).
  right. left. reflexivity.
Defined.

(** ** Container names *)

(** Printing is injective: two numbers with the same digits are equal. *)
Lemma to_int_proper (n : Z) : Z.to_int n <> Pos Nil /\ Z.to_int n <> Neg Nil.
Proof.
  destruct n as [|p|p]; cbn; split; try discriminate;
    intros [= Hnil]; exact (Unsigned.to_uint_nonnil p Hnil).
Qed.

Lemma number_to_string_inj (n m : Z) :
  number_to_string n = number_to_string m -> n = m.
Proof.
  unfold number_to_string. intros Heq.
  apply (f_equal NilZero.int_of_string) in Heq.
  destruct (to_int_proper n) as [Hn1 Hn2], (to_int_proper m) as [Hm1 Hm2].
  rewrite !NilZero.isi in Heq by assumption.
  injection Heq as Heq. apply DecimalZ.to_int_inj. exact Heq.
Qed.



(** ** The checker *)

Lemma passed_count_le (ds : list CheckDetail) :
  (Backend.passed_count ds <= List.length ds)%nat.
Proof. unfold Backend.passed_count. apply filter_length_le. Qed.

(** All details passed exactly when as many passed as there are. *)
Lemma all_passed_iff_count (ds : list CheckDetail) :
  forallb passed ds = true <-> Backend.passed_count ds = List.length ds.
Proof.
  unfold Backend.passed_count.
  induction ds as [|d ds IH]; cbn.
  - split; reflexivity.
  - destruct (passed d); cbn.
    + rewrite IH. split; [intros ->; reflexivity | intros [= H]; exact H].
    + split; [discriminate|].
      intros Hlen. pose proof (filter_length_le passed ds). lia.
Qed.

Lemma run_check_name {Engine} (e : Engine) container (p : Backend.Probe Engine) :
  name (Backend.run_check e container p) = Backend.probe_name p.
Proof.
  unfold Backend.run_check.
  destruct (Backend.probe_exec p e container) as [[verdict msg]|]; reflexivity.
Qed.



(** ** The terminal component *)

Lemma TaskStatus_eqb_eq a b : TaskStatus_eqb a b = true <-> a = b.
Proof. destruct a, b; cbn; split; congruence. Qed.

Lemma deps_eqb_eq old new :
  Terminal.deps_eqb (Terminal.deps old) (Terminal.deps new) = true ->
  option_map id old = option_map id new /\
  option_map status old = option_map status new.
Proof.
  unfold Terminal.deps_eqb, Terminal.deps. cbn.
  destruct old as [a|], new as [b|]; cbn; try discriminate.
  - intros H. apply andb_true_iff in H. destruct H as [Hid Hst].
    apply Z.eqb_eq in Hid. apply TaskStatus_eqb_eq in Hst.
    rewrite Hid, Hst. split; reflexivity.
  - split; reflexivity.
Qed.

Lemma same_session_refl st : same_session st st.
Proof. repeat split. Qed.

Lemma same_session_trans st1 st2 st3 :
  same_session st1 st2 -> same_session st2 st3 -> same_session st1 st3.
Proof.
  unfold same_session. intros [A1 [A2 [A3 A4]]] [B1 [B2 [B3 B4]]].
  repeat split; congruence.
Qed.

Lemma same_session_invariant st st' :
  same_session st st' -> session_invariant st -> session_invariant st'.
Proof.
  unfold same_session, session_invariant, socket_matches_task, ref_follows_props.
  intros [H1 [H2 [H3 H4]]]. rewrite H1, H2, H3, H4. tauto.
Qed.

Lemma term_do_same ops st : same_session st (Terminal.term_do ops st).
Proof.
  unfold Terminal.term_do. destruct (Terminal.xtermRef st); repeat split.
Qed.

Lemma emit_same m st : same_session st (Terminal.emit m st).
Proof. repeat split. Qed.

Lemma clearEffect_same k st : same_session st (Terminal.clearEffect k st).
Proof.
  unfold Terminal.clearEffect. destruct (0 <? k);
    [apply term_do_same | apply same_session_refl].
Qed.

Lemma resizeEffect_same t fitted st :
  same_session st (Terminal.resizeEffect t fitted st).
Proof.
  unfold Terminal.resizeEffect.
  destruct t; [destruct (Terminal.xtermRef st)|]; try apply same_session_refl.
  destruct (_ && _); [apply emit_same | apply same_session_refl].
Qed.

Lemma handleResize_same fitted st :
  same_session st (Terminal.handleResize fitted st).
Proof.
  unfold Terminal.handleResize.
  destruct (Terminal.xtermRef st); [|apply same_session_refl].
  destruct (Terminal.connectedTaskIdRef st); [|apply same_session_refl].
  destruct (Terminal.socket_connected st); [apply emit_same | apply same_session_refl].
Qed.

Lemma onData_same data st : same_session st (Terminal.onData data st).
Proof.
  unfold Terminal.onData.
  destruct (Terminal.xtermRef st); [|apply same_session_refl].
  destruct (Terminal.activeTaskRef st) as [t|]; [|apply term_do_same].
  destruct (TaskStatus_eqb (status t) RUNNING); [|apply term_do_same].
  destruct (_ && _); [apply emit_same | apply term_do_same].
Qed.

Lemma onMessage_same m st : same_session st (Terminal.onMessage m st).
Proof.
  unfold Terminal.onMessage.
  destruct (Terminal.socketRef st) as [s|]; [|apply same_session_refl].
  destruct (_ =? _); [|apply same_session_refl].
  destruct m; apply term_do_same.
Qed.

Lemma socket_matches_task_ext st st' :
  Terminal.socketRef st' = Terminal.socketRef st ->
  Terminal.connectedTaskIdRef st' = Terminal.connectedTaskIdRef st ->
  Terminal.activeTaskRef st' = Terminal.activeTaskRef st ->
  socket_matches_task st -> socket_matches_task st'.
Proof.
  unfold socket_matches_task. intros -> -> ->. tauto.
Qed.

Lemma socket_matches_same st st' :
  same_session st st' -> socket_matches_task st -> socket_matches_task st'.
Proof.
  intros [H1 [H2 [H3 _]]]. apply socket_matches_task_ext; assumption.
Qed.

(** The effect opens a socket for a running task only, and for that task. *)
Lemma connectEffect_matches activeTask st :
  Terminal.activeTaskRef st = activeTask ->
  socket_matches_task (Terminal.connectEffect activeTask st).
Proof.
  intros Href. unfold socket_matches_task, Terminal.connectEffect.
  destruct activeTask as [a|]; [|reflexivity].
  destruct (Terminal.is_running (Some a)) eqn:Hrun; [|reflexivity].
  cbn. split; [reflexivity|].
  exists a. repeat split; [exact Href|].
  apply TaskStatus_eqb_eq. exact Hrun.
Qed.

Lemma onConnect_invariant st :
  session_invariant st -> session_invariant (Terminal.onConnect st).
Proof.
  unfold session_invariant, socket_matches_task, ref_follows_props, Terminal.onConnect.
  destruct (Terminal.socketRef st) as [s|] eqn:Hsock; cbn;
    [|rewrite Hsock]; tauto.
Qed.

Lemma onDisconnect_invariant st :
  session_invariant st -> session_invariant (Terminal.onDisconnect st).
Proof.
  unfold session_invariant, socket_matches_task, ref_follows_props, Terminal.onDisconnect.
  destruct (Terminal.socketRef st) as [s|] eqn:Hsock; cbn;
    [|rewrite Hsock]; tauto.
Qed.

Lemma render_first_invariant activeTask clearKey fitted st :
  Terminal.props st = None ->
  session_invariant (Terminal.render activeTask clearKey fitted st).
Proof.
  intros Hfirst. unfold Terminal.render. rewrite Hfirst.
  set (st3 := Terminal.connectEffect activeTask
                (Terminal.mountEffect (Terminal.set_activeTask activeTask st))).
  assert (H3 : socket_matches_task st3)
    by (apply connectEffect_matches; reflexivity).
  assert (Href : Terminal.activeTaskRef st3 = activeTask).
  { unfold st3, Terminal.connectEffect.
    destruct activeTask; [destruct (Terminal.is_running _)|]; reflexivity. }
  pose proof (same_session_trans _ _ _
                (clearEffect_same clearKey st3)
                (resizeEffect_same activeTask fitted _)) as Hsame.
  split.
  - eapply socket_matches_task_ext; [| | |eapply socket_matches_same; eassumption];
      reflexivity.
  - unfold ref_follows_props. cbn.
    destruct Hsame as [_ [_ [Hact _]]]. rewrite Hact. exact Href.
Qed.

Lemma render_again_invariant activeTask clearKey fitted st oldTask oldKey :
  Terminal.props st = Some (oldTask, oldKey) ->
  session_invariant st ->
  session_invariant (Terminal.render activeTask clearKey fitted st).
Proof.
  intros Hprops [Hsock Hfollow]. unfold Terminal.render. rewrite Hprops.
  unfold ref_follows_props in Hfollow. rewrite Hprops in Hfollow. cbn in Hfollow.
  cbv zeta.
  set (st3 := if negb _ then Terminal.connectEffect activeTask _ else _).
  assert (Href : Terminal.activeTaskRef st3 = activeTask).
  { unfold st3. destruct (negb _); [|reflexivity].
    unfold Terminal.connectEffect.
    destruct activeTask; [destruct (Terminal.is_running _)|]; reflexivity. }
  assert (H3 : socket_matches_task st3).
  { unfold st3.
    destruct (Terminal.deps_eqb (Terminal.deps oldTask) (Terminal.deps activeTask))
      eqn:Hdeps; cbn [negb].
    - apply deps_eqb_eq in Hdeps. destruct Hdeps as [Hid Hst].
      unfold socket_matches_task in *. cbn.
      destruct (Terminal.socketRef st) as [s|]; [|exact Hsock].
      destruct Hsock as [Hconn [a [Ha [Hrun Hsame]]]].
      split; [exact Hconn|].
      rewrite Hfollow in Ha. subst oldTask.
      destruct activeTask as [b|]; [|discriminate Hid].
      cbn in Hid, Hst. injection Hid as Hid. injection Hst as Hst.
      exists b. repeat split; congruence.
    - apply connectEffect_matches. reflexivity. }
  set (st4 := if oldKey =? clearKey then st3 else Terminal.clearEffect clearKey st3).
  assert (H34 : same_session st3 st4).
  { unfold st4. destruct (oldKey =? clearKey);
      [apply same_session_refl | apply clearEffect_same]. }
  set (st5 := if negb _ then Terminal.resizeEffect activeTask fitted st4 else st4).
  assert (H45 : same_session st4 st5).
  { unfold st5. destruct (negb _);
      [apply resizeEffect_same | apply same_session_refl]. }
  pose proof (same_session_trans _ _ _ H34 H45) as Hsame.
  split.
  - eapply socket_matches_task_ext; [| | |eapply socket_matches_same; eassumption];
      reflexivity.
  - unfold ref_follows_props. cbn.
    destruct Hsame as [_ [_ [Hact _]]]. rewrite Hact. exact Href.
Qed.

Lemma step_invariant st e :
  session_invariant st -> session_invariant (Terminal.step st e).
Proof.
  intros Hinv. destruct e; cbn [Terminal.step].
  - destruct (Terminal.props st) as [[oldTask oldKey]|] eqn:Hprops.
    + eapply render_again_invariant; eassumption.
    + apply render_first_invariant. exact Hprops.
  - apply onConnect_invariant. exact Hinv.
  - apply onDisconnect_invariant. exact Hinv.
  - eapply same_session_invariant; [apply onMessage_same | exact Hinv].
  - eapply same_session_invariant; [apply onData_same | exact Hinv].
  - eapply same_session_invariant; [apply handleResize_same | exact Hinv].
Qed.

Lemma fold_step_invariant events st :
  session_invariant st -> session_invariant (fold_left Terminal.step events st).
Proof.
  revert st. induction events as [|e events IH]; intros st Hinv; cbn.
  - exact Hinv.
  - apply IH. apply step_invariant. exact Hinv.
Qed.

(** Every state that the component reaches satisfies the invariant. *)
Lemma run_invariant events : session_invariant (Terminal.run events).
Proof.
  apply fold_step_invariant.
  split; reflexivity.
Qed.

Lemma onMessage_foreign st m :
  session_invariant st ->
  Terminal.connectedTaskIdRef st <> Some (Terminal.payload_taskId m) ->
  Terminal.onMessage m st = st.
Proof.
  intros [Hsock _] Hforeign. unfold Terminal.onMessage.
  unfold socket_matches_task in Hsock.
  destruct (Terminal.socketRef st) as [s|]; [|reflexivity].
  destruct Hsock as [Hconn _].
  destruct (Terminal.payload_taskId m =? Terminal.taskId s) eqn:Hsame;
    [|reflexivity].
  apply Z.eqb_eq in Hsame. rewrite Hconn, Hsame in Hforeign.
  contradiction Hforeign. reflexivity.
Qed.

(** C10. In every state that the terminal component reaches, an incoming
    event (output, exit or error) whose exercise id is not the id of the
    currently connected session is discarded: nothing is written to the
    display and nothing else changes. So the state after any run of such
    events is the state before it, and what a session displays depends only
    on the events that carry its own exercise id. *)
Theorem foreign_terminal_events_are_discarded events :
  let st := Terminal.run events in
  (forall m,
     Terminal.connectedTaskIdRef st <> Some (Terminal.payload_taskId m) ->
     Terminal.xtermRef (Terminal.step st (Terminal.Message m)) = Terminal.xtermRef st /\
     Terminal.step st (Terminal.Message m) = st) /\
  (forall ms,
     Forall (fun m => Terminal.connectedTaskIdRef st
                        <> Some (Terminal.payload_taskId m)) ms ->
     Terminal.run (events ++ map Terminal.Message ms) = st).
Proof.
  cbv zeta. pose proof (run_invariant events) as Hinv.
  split.
  - intros m Hforeign. cbn [Terminal.step].
    rewrite (onMessage_foreign _ m Hinv Hforeign). split; reflexivity.
  - intros ms Hall. unfold Terminal.run. rewrite fold_left_app.
    fold (Terminal.run events).
    induction Hall as [|m ms Hforeign _ IH]; cbn.
    + reflexivity.
    + rewrite (onMessage_foreign _ m Hinv Hforeign). exact IH.
Qed.

Lemma foreign_terminal_events_are_discarded_witness :
  Terminal.connectedTaskIdRef (Terminal.run (sample_session RUNNING))
    <> Some (Terminal.payload_taskId (Terminal.terminal_output 2 "uid=0(root)")) /\
  Terminal.xtermRef
    (Terminal.step (Terminal.run (sample_session RUNNING))
       (Terminal.Message (Terminal.terminal_output 2 "uid=0(root)")))
  = Some Terminal.banner.
Proof.
  split; [discriminate|].
  rewrite (proj1 (proj1 (foreign_terminal_events_are_discarded (sample_session RUNNING))
                    (Terminal.terminal_output 2 "uid=0(root)")
                    ltac:(discriminate))).
  reflexivity.
Defined.

(** ** Attaching a terminal *)

Lemma not_running_no_socket st :
  session_invariant st ->
  Terminal.is_running (Terminal.activeTaskRef st) = false ->
  Terminal.socketRef st = None /\ Terminal.connectedTaskIdRef st = None.
Proof.
  intros [Hsock _] Hidle. unfold socket_matches_task in Hsock.
  destruct (Terminal.socketRef st) as [s|]; [|split; [reflexivity | exact Hsock]].
  destruct Hsock as [_ [a [Ha [Hrun _]]]].
  rewrite Ha in Hidle. cbn in Hidle. rewrite Hrun in Hidle. discriminate Hidle.
Qed.

(** C7. In the bridge, an attach request for an exercise that is not Running
    is answered with an error event, spawns no shell and leaves the session
    Disconnected, and input reaches a shell only on a session attached to a
    Running exercise. In the client, as long as the active exercise is not
    Running there is no socket and no connected session, an effect run for
    it opens none, and neither the socket's connect event nor a keystroke
    emits anything (a keystroke is answered on the display); a socket exists
    only for an active exercise that is Running, and input is forwarded
    only then. *)
Theorem attach_requires_running_exercise :
  (forall status_of x b,
     status_of x <> RUNNING ->
     Backend.session (Backend.attach status_of x b) = Backend.Disconnected /\
     Backend.spawned (Backend.attach status_of x b) = Backend.spawned b /\
     Backend.outbound (Backend.attach status_of x b) =
       (Backend.outbound b ++ [Terminal.terminal_error x "Container not running"])%list /\
     forall data,
       Backend.shell_input (Backend.input data (Backend.attach status_of x b))
       = Backend.shell_input b) /\
  (forall status_of x b,
     Backend.spawned (Backend.attach status_of x b) <> Backend.spawned b ->
     status_of x = RUNNING /\
     Backend.session (Backend.attach status_of x b) = Backend.Attached) /\
  (forall activeTask st,
     Terminal.is_running activeTask = false ->
     Terminal.socketRef (Terminal.connectEffect activeTask st) = None /\
     Terminal.connectedTaskIdRef (Terminal.connectEffect activeTask st) = None /\
     Terminal.opened (Terminal.connectEffect activeTask st) = Terminal.opened st /\
     Terminal.emitted (Terminal.connectEffect activeTask st) = Terminal.emitted st) /\
  (forall events,
     Terminal.is_running (Terminal.activeTaskRef (Terminal.run events)) = false ->
     Terminal.socketRef (Terminal.run events) = None /\
     Terminal.connectedTaskIdRef (Terminal.run events) = None /\
     Terminal.emitted (Terminal.step (Terminal.run events) Terminal.Connect)
       = Terminal.emitted (Terminal.run events) /\
     forall data,
       Terminal.emitted (Terminal.step (Terminal.run events) (Terminal.Data data))
       = Terminal.emitted (Terminal.run events)) /\
  (forall events s,
     Terminal.socketRef (Terminal.run events) = Some s ->
     exists a, Terminal.activeTaskRef (Terminal.run events) = Some a /\
               status a = RUNNING /\ id a = Terminal.taskId s) /\
  (forall events data,
     Terminal.emitted (Terminal.step (Terminal.run events) (Terminal.Data data))
       <> Terminal.emitted (Terminal.run events) ->
     Terminal.is_running (Terminal.activeTaskRef (Terminal.run events)) = true).
Proof.
  assert (Hdata : forall st data,
            Terminal.is_running (Terminal.activeTaskRef st) = false ->
            Terminal.emitted (Terminal.onData data st) = Terminal.emitted st).
  { intros st data Hidle. unfold Terminal.onData, Terminal.term_do.
    destruct (Terminal.xtermRef st); [|reflexivity].
    destruct (Terminal.activeTaskRef st) as [t|]; [|reflexivity].
    cbn in Hidle. rewrite Hidle. reflexivity. }
  repeat apply conj.
  - intros status_of x b Hidle. unfold Backend.attach, Backend.input.
    destruct (status_of x); try contradiction; cbn;
      (repeat split; try reflexivity; intros data; destruct (Backend.session b);
       reflexivity).
  - intros status_of x b Hspawn. unfold Backend.attach in *.
    destruct (status_of x); cbn in *; try contradiction. split; reflexivity.
  - intros activeTask st Hidle. unfold Terminal.connectEffect.
    rewrite Hidle. destruct activeTask; repeat split.
  - intros events Hidle.
    destruct (not_running_no_socket _ (run_invariant events) Hidle) as [Hsock Hconn].
    repeat split; try assumption.
    + cbn [Terminal.step]. unfold Terminal.onConnect. rewrite Hsock. reflexivity.
    + intros data. apply Hdata. exact Hidle.
  - intros events s Hsock.
    destruct (run_invariant events) as [Hmatch _].
    unfold socket_matches_task in Hmatch. rewrite Hsock in Hmatch.
    destruct Hmatch as [_ Hmatch]. exact Hmatch.
  - intros events data Hemit.
    destruct (Terminal.is_running (Terminal.activeTaskRef (Terminal.run events)))
      eqn:Hrun; [reflexivity|].
    contradiction Hemit. apply Hdata. exact Hrun.
Qed.

Lemma attach_requires_running_exercise_witness :
  Terminal.is_running (Terminal.activeTaskRef (Terminal.run (sample_session STOPPED)))
    = false /\
  Terminal.socketRef (Terminal.run (sample_session STOPPED)) = None /\
  Terminal.emitted (Terminal.step (Terminal.run (sample_session STOPPED))
                      (Terminal.Data "ls"))
    = [] /\
  Backend.outbound (Backend.attach (fun _ => STOPPED) 1 Backend.idle_bridge)
    = [Terminal.terminal_error 1 "Container not running"].
Proof.
  pose proof attach_requires_running_exercise as [Hbridge [_ [_ [Hclient _]]]].
  destruct (Hclient (sample_session STOPPED) eq_refl) as [Hsock [_ [_ Hdata]]].
  destruct (Hbridge (fun _ => STOPPED) 1 Backend.idle_bridge ltac:(discriminate))
    as [_ [_ [Hout _]]].
  split; [reflexivity|]. split; [exact Hsock|].
  split; [exact (Hdata "ls")|]. exact Hout.
Defined.

(** * Further properties of the client *)

(** ** The start-up *)

(** The page that a failed start-up leaves. *)
Lemma init_world_failed c1 c2 net w :
  body_of (net status_request) = Rejected \/
  body_of (net tasks_request) = Rejected \/
  (exists d2, body_of (net tasks_request) = Resolved d2 /\
              startup_throws (activeTaskId (app w)) d2 (c2 d2) = true) ->
  init c1 c2 net w =
    (Resolved tt,
     {| app := {| tasks := [];
                  activeTaskId := activeTaskId (app w);
                  dockerStatus := Some failed_to_load;
                  isLoading := false;
                  terminalClearKey := terminalClearKey (app w) |};
        sent := sent w ++ [status_request; tasks_request];
        shown := shown w ++ [tasks (app w); tasks (app w)] |}).
Proof.
  unfold init, try_finally, try_catch, promise_all, getDockerStatus, getTasks,
    bind, fetch, res_json, ret, throw, setDockerStatus, setTasks, setActiveTaskId,
    setIsLoading, setState, getState, body_of, status_request, tasks_request,
    failed_to_load, length_positive, first_id, nullable, startup_throws, API.
  cbn.
  destruct (net {| method := GET; url := "/api/docker/status" |}) as [r1|];
    destruct (net {| method := GET; url := "/api/tasks" |}) as [r2|]; cbn;
    try destruct (json r1) as [d1|]; try destruct (json r2) as [d2|]; cbn;
    intros [Hfail | [Hfail | [d [Hbody Hthrows]]]];
    try discriminate; rewrite <- ?app_assoc; cbn; try reflexivity.
  injection Hbody as <-. revert Hthrows.
  destruct d2 as [| | | |[|[| | | | |] items]|]; cbn; try discriminate;
    try reflexivity.
  destruct (c2 _) as [|first rest]; cbn; [discriminate|].
  intros ->. reflexivity.
Qed.

(** The page that a start-up leaves when both bodies arrived and the [try]
    block ran through. *)
Lemma init_world_loaded c1 c2 net w d1 d2 :
  body_of (net status_request) = Resolved d1 ->
  body_of (net tasks_request) = Resolved d2 ->
  startup_throws (activeTaskId (app w)) d2 (c2 d2) = false ->
  init c1 c2 net w =
    (Resolved tt,
     {| app := {| tasks := c2 d2;
                  activeTaskId :=
                    match c2 d2 with
                    | first :: _ =>
                        if falsy_id (activeTaskId (app w)) then Some (id first)
                        else activeTaskId (app w)
                    | [] => activeTaskId (app w)
                    end;
                  dockerStatus := match d1 with
                                  | JNull => None
                                  | _ => Some (c1 d1)
                                  end;
                  isLoading := false;
                  terminalClearKey := terminalClearKey (app w) |};
        sent := sent w ++ [status_request; tasks_request];
        shown := shown w ++ [tasks (app w); tasks (app w)] |}).
Proof.
  unfold init, try_finally, try_catch, promise_all, getDockerStatus, getTasks,
    bind, fetch, res_json, ret, throw, setDockerStatus, setTasks, setActiveTaskId,
    setIsLoading, setState, getState, body_of, status_request, tasks_request,
    failed_to_load, length_positive, first_id, nullable, startup_throws, API.
  cbn.
  destruct (net {| method := GET; url := "/api/docker/status" |}) as [r1|];
    [|discriminate].
  destruct (net {| method := GET; url := "/api/tasks" |}) as [r2|];
    [|intros _; discriminate].
  cbn. intros -> -> Hruns. cbn. revert Hruns.
  assert (Hstatus : forall A (x : A),
            match d1 with JNull => None | _ => Some x end
            = match d1 with JNull => None | _ => Some x end) by reflexivity.
  destruct d2 as [| | | |[|[| | | | |] items]|]; cbn; try discriminate;
    intros Hruns; destruct (c2 _) as [|first rest]; cbn;
    try (destruct (falsy_id (activeTaskId (app w))); try discriminate Hruns; cbn);
    rewrite <- ?app_assoc; cbn; destruct d1; reflexivity.
Qed.

Lemma startup_cases c2 net w :
  body_of (net status_request) = Rejected \/
  body_of (net tasks_request) = Rejected \/
  (exists d2, body_of (net tasks_request) = Resolved d2 /\
              startup_throws (activeTaskId (app w)) d2 (c2 d2) = true) \/
  (exists d1 d2, body_of (net status_request) = Resolved d1 /\
                 body_of (net tasks_request) = Resolved d2 /\
                 startup_throws (activeTaskId (app w)) d2 (c2 d2) = false).
Proof.
  destruct (body_of (net status_request)) as [d1|]; [|left; reflexivity].
  destruct (body_of (net tasks_request)) as [d2|]; [|right; left; reflexivity].
  destruct (startup_throws (activeTaskId (app w)) d2 (c2 d2)) eqn:Hthrows.
  - right. right. left. exists d2. split; [reflexivity | exact Hthrows].
  - right. right. right. exists d1, d2. repeat split. exact Hthrows.
Qed.

(** X1. Neither the start-up nor a task action ever rejects: a failed
    request, a body that is not JSON and a refusal are all absorbed, and the
    start-up always ends with the loading flag cleared. *)
Theorem handlers_absorb_every_failure :
  (forall cast taskId action net w,
     fst (handleTaskAction cast taskId action net w) = Resolved tt) /\
  (forall c1 c2 net w,
     fst (init c1 c2 net w) = Resolved tt /\
     isLoading (app (snd (init c1 c2 net w))) = false).
Proof.
  split.
  - intros cast taskId action net w.
    destruct (engine_available (dockerStatus (app w))) eqn:Hengine.
    + rewrite (handleTaskAction_available cast taskId action net w Hengine).
      reflexivity.
    + rewrite (handleTaskAction_unavailable cast taskId action net w Hengine).
      reflexivity.
  - intros c1 c2 net w.
    destruct (startup_cases c2 net w)
      as [H | [H | [H | [d1 [d2 [H1 [H2 H3]]]]]]].
    + rewrite (init_world_failed c1 c2 net w (or_introl H)).
      split; reflexivity.
    + rewrite (init_world_failed c1 c2 net w (or_intror (or_introl H))).
      split; reflexivity.
    + rewrite (init_world_failed c1 c2 net w (or_intror (or_intror H))).
      split; reflexivity.
    + rewrite (init_world_loaded c1 c2 net w d1 d2 H1 H2 H3).
      split; reflexivity.
Qed.

(** X2. When either start-up request fails (the request itself, or its
    body is not JSON), both requests have still been sent, the page ends
    with an empty task list and the engine marked unavailable with the error
    "Failed to load", and from then on no task action issues any request or
    changes anything. *)
Theorem failed_startup_disables_every_action c1 c2 cast net net' w taskId action :
  body_of (net status_request) = Rejected \/
  body_of (net tasks_request) = Rejected ->
  let w1 := snd (init c1 c2 net w) in
  sent w1 = (sent w ++ [status_request; tasks_request])%list /\
  tasks (app w1) = [] /\
  dockerStatus (app w1) = Some failed_to_load /\
  handleTaskAction cast taskId action net' w1 = (Resolved tt, w1).
Proof.
  intros Hfail. cbv zeta.
  assert (Hfailed : body_of (net status_request) = Rejected \/
                    body_of (net tasks_request) = Rejected \/
                    (exists d2, body_of (net tasks_request) = Resolved d2 /\
                                startup_throws (activeTaskId (app w)) d2 (c2 d2)
                                = true))
    by (destruct Hfail as [H | H]; [left | right; left]; exact H).
  rewrite (init_world_failed c1 c2 net w Hfailed). cbn [snd].
  split; [reflexivity|]. split; [reflexivity|]. split; [reflexivity|].
  apply handleTaskAction_unavailable. reflexivity.
Qed.

Lemma failed_startup_disables_every_action_witness :
  (body_of (net_down status_request) = Rejected \/
   body_of (net_down tasks_request) = Rejected) /\
  sent (snd (init sample_engine sample_tasks net_down
               (world_of (sample_state IDLE true))))
  = [status_request; tasks_request] /\
  tasks (app (snd (init sample_engine sample_tasks net_down
                     (world_of (sample_state IDLE true))))) = [] /\
  dockerStatus (app (snd (init sample_engine sample_tasks net_down
                            (world_of (sample_state IDLE true)))))
  = Some failed_to_load /\
  handleTaskAction sample_cast 1 start net_ok
    (snd (init sample_engine sample_tasks net_down
            (world_of (sample_state IDLE true))))
  = (Resolved tt,
     snd (init sample_engine sample_tasks net_down
            (world_of (sample_state IDLE true)))).
Proof.
  split; [left; reflexivity|].
  exact (failed_startup_disables_every_action sample_engine sample_tasks
           sample_cast net_down net_ok (world_of (sample_state IDLE true))
           1 start (or_introl eq_refl)).
Defined.

Lemma startup_runs_through current d2 loaded :
  d2 <> JNull -> (forall items, d2 <> JArray (JNull :: items)) ->
  startup_throws current d2 loaded = false.
Proof.
  intros Hnull Hfirst. unfold startup_throws.
  destruct d2 as [| | | |[|[| | | | |] items]|]; try reflexivity.
  - contradiction Hnull. reflexivity.
  - contradiction (Hfirst items). reflexivity.
Qed.

(** X3. When both start-up bodies arrive and the task body is an array that
    does not start with [null], the page takes the task list from the task
    body and, when the status body is an object, the engine status from
    it, whatever the HTTP status of the responses; a status body of [null]
    leaves the engine status null, hence the engine unavailable. The
    selected task is kept when there is one (an id other than 0), and is
    otherwise the first task of the list, if the list has one. A task body
    of [null] makes the start-up end like a failed one, with an empty list
    and the engine unavailable with "Failed to load"; so does a task body
    whose first element is [null] when the id of that element is to be
    read. *)
Theorem startup_loads_engine_and_tasks c1 c2 net w d1 d2 :
  body_of (net status_request) = Resolved d1 ->
  body_of (net tasks_request) = Resolved d2 ->
  let s1 := app (snd (init c1 c2 net w)) in
  (forall items,
     d2 = JArray items -> (forall rest, items <> JNull :: rest) ->
     ((exists members, d1 = JObject members) ->
      dockerStatus s1 = Some (c1 d1)) /\
     (d1 = JNull -> dockerStatus s1 = None) /\
     tasks s1 = c2 d2 /\
     (falsy_id (activeTaskId (app w)) = false ->
      activeTaskId s1 = activeTaskId (app w)) /\
     (falsy_id (activeTaskId (app w)) = true ->
      activeTaskId s1 = match c2 d2 with
                        | first :: _ => Some (id first)
                        | [] => activeTaskId (app w)
                        end)) /\
  (d2 = JNull \/
   (exists items first rest,
      d2 = JArray (JNull :: items) /\ c2 d2 = first :: rest /\
      falsy_id (activeTaskId (app w)) = true) ->
   tasks s1 = [] /\
   dockerStatus s1 = Some failed_to_load /\
   activeTaskId s1 = activeTaskId (app w)).
Proof.
  intros H1 H2. cbv zeta. split.
  - intros items Harray Hfirst.
    assert (Hruns : startup_throws (activeTaskId (app w)) d2 (c2 d2) = false).
    { apply startup_runs_through.
      - rewrite Harray. discriminate.
      - intros rest Heq. rewrite Harray in Heq. injection Heq as Heq.
        exact (Hfirst rest Heq). }
    rewrite (init_world_loaded c1 c2 net w d1 d2 H1 H2 Hruns). cbn.
    repeat split.
    + intros [members ->]. reflexivity.
    + intros ->. reflexivity.
    + intros Hkeep. rewrite Hkeep. destruct (c2 d2); reflexivity.
    + intros Hpick. rewrite Hpick. reflexivity.
  - intros Hthrows.
    assert (Hfailed : startup_throws (activeTaskId (app w)) d2 (c2 d2) = true).
    { destruct Hthrows as [-> | [items [first [rest [-> [Hloaded Hfalsy]]]]]];
        [reflexivity|].
      cbn. rewrite Hloaded. exact Hfalsy. }
    rewrite (init_world_failed c1 c2 net w
               (or_intror (or_intror (ex_intro _ d2 (conj H2 Hfailed))))).
    repeat split.
Qed.

Lemma startup_loads_engine_and_tasks_witness :
  body_of (net_catalog status_request)
    = Resolved (JObject [("available", JBool true); ("version", JString "29.1.5")]) /\
  body_of (net_catalog tasks_request) = Resolved (JArray [JObject []]) /\
  tasks (app (snd (init sample_engine sample_tasks net_catalog
                     (world_of (sample_state IDLE false))))) = INITIAL_TASKS /\
  engine_available
    (dockerStatus (app (snd (init sample_engine sample_tasks net_catalog
                              (world_of (sample_state IDLE false)))))) = true.
Proof.
  split; [reflexivity|]. split; [reflexivity|].
  destruct (proj1 (startup_loads_engine_and_tasks sample_engine sample_tasks
                     net_catalog (world_of (sample_state IDLE false)) _ _
                     eq_refl eq_refl)
              [JObject []] eq_refl ltac:(discriminate))
    as [Hstatus [_ [Htasks _]]].
  split; [exact Htasks|].
  rewrite (Hstatus (ex_intro _ _ eq_refl)). reflexivity.
Defined.

(** ** More about the task handler *)

(** The task list that an action leaves when the engine is available. *)
Lemma handleTaskAction_tasks cast taskId action net w :
  engine_available (dockerStatus (app w)) = true ->
  tasks (app (snd (handleTaskAction cast taskId action net w))) =
    map (commit taskId (settled cast action (net (request_for taskId action))))
      (tasks (app w)).
Proof.
  intros Hengine.
  rewrite (handleTaskAction_available cast taskId action net w Hengine). cbn.
  rewrite map_map. apply map_ext. intros t. apply commit_mark_starting.
Qed.

Lemma Forall2_map_same {A} (R : A -> A -> Prop) (f : A -> A) (l : list A) :
  (forall a, R a (f a)) -> Forall2 R l (map f l).
Proof.
  intros Hf. induction l as [|a l IH]; cbn; constructor; [apply Hf | exact IH].
Qed.

Lemma mark_starting_other taskId t : id t <> taskId -> mark_starting taskId t = t.
Proof.
  intros Hother. unfold mark_starting.
  apply Z.eqb_neq in Hother. rewrite Hother. reflexivity.
Qed.

Lemma commit_other taskId l t : id t <> taskId -> commit taskId l t = t.
Proof.
  intros Hother. unfold commit.
  apply Z.eqb_neq in Hother. rewrite Hother. reflexivity.
Qed.

Lemma id_commit taskId l t : id (commit taskId l t) = id t.
Proof. unfold commit. destruct (id t =? taskId); reflexivity. Qed.

(** X4. An action on one task leaves every other task alone: in the list
    shown while the request is pending and in the list the action leaves,
    the rows stand in the order and with the ids they had, and every row
    with another id is exactly what it was, whatever the action and the
    answer. *)
Theorem action_touches_only_its_task cast taskId action net w :
  let w' := snd (handleTaskAction cast taskId action net w) in
  exists during,
    shown w' = (shown w ++ during)%list /\
    Forall (fun l =>
              Forall2 (fun t t' => id t' = id t /\ (id t <> taskId -> t' = t))
                (tasks (app w)) l)
      (during ++ [tasks (app w')]).
Proof.
  cbv zeta.
  destruct (engine_available (dockerStatus (app w))) eqn:Hengine.
  - rewrite (handleTaskAction_available cast taskId action net w Hengine). cbn.
    eexists. split; [reflexivity|]. cbn.
    constructor; [|constructor; [|constructor]].
    + apply Forall2_map_same. intros t.
      split; [apply id_mark_starting | apply mark_starting_other].
    + rewrite map_map. apply Forall2_map_same. intros t.
      rewrite commit_mark_starting.
      split; [apply id_commit | apply commit_other].
  - rewrite (handleTaskAction_unavailable cast taskId action net w Hengine). cbn.
    exists []. split; [symmetry; apply app_nil_r|]. cbn.
    constructor; [|constructor].
    rewrite <- (map_id (tasks (app w))) at 2.
    apply Forall2_map_same. intros t. split; [reflexivity|]. intros _. reflexivity.
Qed.

(** The status that the acted-on rows end with is the [newStatus] that the
    answer settles. *)
Lemma final_status cast taskId action net w t :
  engine_available (dockerStatus (app w)) = true ->
  In t (tasks (app (snd (handleTaskAction cast taskId action net w)))) ->
  id t = taskId ->
  status t = newStatus (settled cast action (net (request_for taskId action))) /\
  exists t0, In t0 (tasks (app w)) /\ id t0 = taskId /\
             lastCheck t =
               or_else (checkResult (settled cast action
                                       (net (request_for taskId action))))
                 (lastCheck t0).
Proof.
  intros Hengine Hin Hid.
  rewrite (handleTaskAction_tasks cast taskId action net w Hengine) in Hin.
  apply in_map_iff in Hin. destruct Hin as [t0 [Heq Hin0]]. subst t.
  rewrite id_commit in Hid. unfold commit.
  pose proof Hid as Hrow. apply Z.eqb_eq in Hrow. rewrite Hrow. cbn.
  split; [reflexivity|]. exists t0. repeat split; assumption.
Qed.

(** X5. With the engine available, a stop ends with the task Stopped as
    soon as the request comes back with a JSON body, also when the response
    is an HTTP error or its body refuses the stop; only a request that fails
    outright, or a body that is not JSON, leaves the task Idle. *)
Theorem stop_ends_stopped_even_if_refused cast taskId net w t :
  engine_available (dockerStatus (app w)) = true ->
  In t (tasks (app (snd (handleTaskAction cast taskId stop net w)))) ->
  id t = taskId ->
  status t = match body_of (net (request_for taskId stop)) with
             | Resolved _ => STOPPED
             | Rejected => IDLE
             end.
Proof.
  intros Hengine Hin Hid.
  destruct (final_status cast taskId stop net w t Hengine Hin Hid) as [Hstatus _].
  rewrite Hstatus. unfold settled, body_of.
  destruct (net (request_for taskId stop)) as [res|]; [|reflexivity].
  destruct (json res); reflexivity.
Qed.

Lemma stop_ends_stopped_even_if_refused_witness :
  engine_available (dockerStatus (app (world_of (sample_state RUNNING true)))) = true /\
  In (sample_task_row STOPPED)
     (tasks (app (snd (handleTaskAction sample_cast 1 stop net_refused
                         (world_of (sample_state RUNNING true)))))) /\
  id (sample_task_row STOPPED) = 1 /\
  status (sample_task_row STOPPED) = STOPPED.
Proof.
  split; [reflexivity|].
  assert (Hin : In (sample_task_row STOPPED)
     (tasks (app (snd (handleTaskAction sample_cast 1 stop net_refused
                         (world_of (sample_state RUNNING true)))))))
    by (left; reflexivity).
  split; [exact Hin|]. split; [reflexivity|].
  exact (stop_ends_stopped_even_if_refused sample_cast 1 net_refused
           (world_of (sample_state RUNNING true)) (sample_task_row STOPPED)
           eq_refl Hin eq_refl).
Defined.

(** X6. With the engine available, a start ends with the task Running
    exactly when the response is ok and its body is an object whose member
    [ok] is [true]; in every other case (refusal, HTTP error, failed
    request, body that is not JSON) the task ends Idle, whatever its status
    was before. *)
Theorem start_ends_running_iff_granted cast taskId net w t :
  engine_available (dockerStatus (app w)) = true ->
  In t (tasks (app (snd (handleTaskAction cast taskId start net w)))) ->
  id t = taskId ->
  (succeeded (net (request_for taskId start)) = true -> status t = RUNNING) /\
  (succeeded (net (request_for taskId start)) = false -> status t = IDLE).
Proof.
  intros Hengine Hin Hid.
  destruct (final_status cast taskId start net w t Hengine Hin Hid) as [Hstatus _].
  rewrite Hstatus. unfold settled, succeeded.
  destruct (net (request_for taskId start)) as [res|];
    [destruct (json res) as [data|]|]; cbn;
    try (split; [discriminate | reflexivity]).
  destruct (ok res && ok_is_true data); split; congruence.
Qed.

Lemma start_ends_running_iff_granted_witness :
  engine_available (dockerStatus (app (world_of (sample_state STOPPED true)))) = true /\
  In (sample_task_row RUNNING)
     (tasks (app (snd (handleTaskAction sample_cast 1 start net_ok
                         (world_of (sample_state STOPPED true)))))) /\
  id (sample_task_row RUNNING) = 1 /\
  succeeded (net_ok (request_for 1 start)) = true /\
  status (sample_task_row RUNNING) = RUNNING.
Proof.
  split; [reflexivity|].
  assert (Hin : In (sample_task_row RUNNING)
     (tasks (app (snd (handleTaskAction sample_cast 1 start net_ok
                         (world_of (sample_state STOPPED true)))))))
    by (left; reflexivity).
  split; [exact Hin|]. split; [reflexivity|]. split; [reflexivity|].
  exact (proj1 (start_ends_running_iff_granted sample_cast 1 net_ok
                  (world_of (sample_state STOPPED true)) (sample_task_row RUNNING)
                  eq_refl Hin eq_refl) eq_refl).
Defined.

(** X7. With the engine available, a check whose request fails, or comes
    back with a body that is not JSON, ends with the task Idle and with the
    lastCheck it had before. *)
Theorem failed_check_ends_idle cast taskId net w :
  engine_available (dockerStatus (app w)) = true ->
  body_of (net (request_for taskId check)) = Rejected ->
  tasks (app (snd (handleTaskAction cast taskId check net w))) =
    map (fun t => if id t =? taskId then with_status IDLE t else t)
      (tasks (app w)).
Proof.
  intros Hengine Hfail.
  rewrite (handleTaskAction_tasks cast taskId check net w Hengine).
  apply map_ext. intros t. unfold commit, settled.
  unfold body_of in Hfail.
  destruct (net (request_for taskId check)) as [res|];
    [rewrite Hfail|]; reflexivity.
Qed.

Lemma failed_check_ends_idle_witness :
  engine_available (dockerStatus (app (world_of (sample_state RUNNING true)))) = true /\
  body_of (net_down (request_for 1 check)) = Rejected /\
  find_task 1
    (tasks (app (snd (handleTaskAction sample_cast 1 check net_down
                        (world_of (sample_state RUNNING true))))))
  = Some (sample_task_row IDLE).
Proof.
  split; [reflexivity|]. split; [reflexivity|].
  rewrite (failed_check_ends_idle sample_cast 1 net_down
             (world_of (sample_state RUNNING true)) eq_refl eq_refl).
  reflexivity.
Defined.

Lemma handleTaskAction_other_cells cast taskId action net w :
  activeTaskId (app (snd (handleTaskAction cast taskId action net w)))
    = activeTaskId (app w) /\
  dockerStatus (app (snd (handleTaskAction cast taskId action net w)))
    = dockerStatus (app w) /\
  isLoading (app (snd (handleTaskAction cast taskId action net w)))
    = isLoading (app w).
Proof.
  destruct (engine_available (dockerStatus (app w))) eqn:Hengine.
  - rewrite (handleTaskAction_available cast taskId action net w Hengine).
    repeat split.
  - rewrite (handleTaskAction_unavailable cast taskId action net w Hengine).
    repeat split.
Qed.

Lemma handleTaskAction_clear_key cast taskId action net w :
  terminalClearKey (app (snd (handleTaskAction cast taskId action net w))) =
    terminalClearKey (app w) +
    (if engine_available (dockerStatus (app w))
     then match action with check => 0 | _ => 1 end
     else 0).
Proof.
  destruct (engine_available (dockerStatus (app w))) eqn:Hengine.
  - rewrite (handleTaskAction_available cast taskId action net w Hengine). cbn.
    destruct action; lia.
  - rewrite (handleTaskAction_unavailable cast taskId action net w Hengine). cbn.
    lia.
Qed.

(** X8. A task action changes nothing of the page but the task list and
    the terminal clear key: the selected task, the engine status and the
    loading flag stay as they were. The clear key goes up by exactly one for
    a start, stop or reset that passes the engine gate, whatever the answer,
    and stays for a check and for any action stopped at the gate. *)
Theorem action_bumps_clear_key_only cast taskId action net w :
  let s := app w in
  let s' := app (snd (handleTaskAction cast taskId action net w)) in
  activeTaskId s' = activeTaskId s /\
  dockerStatus s' = dockerStatus s /\
  isLoading s' = isLoading s /\
  terminalClearKey s' =
    terminalClearKey s +
    (if engine_available (dockerStatus s)
     then match action with check => 0 | _ => 1 end
     else 0).
Proof.
  cbv zeta.
  destruct (handleTaskAction_other_cells cast taskId action net w)
    as [Hselected [Hengine Hloading]].
  repeat split; try assumption.
  apply handleTaskAction_clear_key.
Qed.

Lemma commit_idempotent taskId l t :
  commit taskId l (commit taskId l t) = commit taskId l t.
Proof.
  unfold commit. destruct (id t =? taskId) eqn:Hrow; cbn; rewrite Hrow;
    [|reflexivity].
  unfold with_status_lastCheck. cbn.
  destruct (checkResult l); reflexivity.
Qed.

(** X9. Repeating an action is idempotent on the task list: when the same
    action on the same task gets the same answer a second time, the task
    list after the second run is the task list after the first (a second
    start of a started task leaves it Running, and nothing else moves). *)
Theorem repeated_action_is_idempotent cast taskId action net w :
  let w1 := snd (handleTaskAction cast taskId action net w) in
  let w2 := snd (handleTaskAction cast taskId action net w1) in
  tasks (app w2) = tasks (app w1).
Proof.
  cbv zeta.
  destruct (handleTaskAction_other_cells cast taskId action net w)
    as [_ [Hstatus _]].
  destruct (engine_available (dockerStatus (app w))) eqn:Hengine.
  - rewrite (handleTaskAction_tasks cast taskId action net
               (snd (handleTaskAction cast taskId action net w)))
      by (rewrite Hstatus; exact Hengine).
    rewrite (handleTaskAction_tasks cast taskId action net w Hengine).
    rewrite map_map. apply map_ext. intros t. apply commit_idempotent.
  - rewrite (handleTaskAction_unavailable cast taskId action net w Hengine).
    cbn [snd].
    rewrite (handleTaskAction_unavailable cast taskId action net w Hengine).
    reflexivity.
Qed.

Lemma newStatus_settled_not_starting cast action answer :
  newStatus (settled cast action answer) <> STARTING.
Proof.
  unfold settled.
  destruct answer as [res|]; [destruct (json res)|]; cbn; try discriminate.
  destruct action; cbn; try discriminate;
    destruct (ok res && ok_is_true _); discriminate.
Qed.

(** X10. The task handler runs in two steps around its [await], and run
    one after the other they are the handler. When it is suspended, the
    task it acts on stands as Starting in the task list, so that its Start,
    Stop and Verify buttons are all disabled. When it resumes, whatever
    other handlers have written in the meantime, its last write leaves that
    task Running, Idle or Stopped, never Starting. The buttons are not kept
    disabled for the whole wait when actions overlap, which they can since
    Reset is never disabled: with a start and a reset of task 1 both under
    way, once the start is granted the task shows Running, with Stop and
    Verify enabled, while the reset is still pending. *)
Theorem suspended_action_disables_buttons cast taskId action :
  (forall net w,
     engine_available (dockerStatus (app w)) = true ->
     snd (handleTaskAction_begins taskId action (app w))
       = Some (request_for taskId action) /\
     handleTaskAction cast taskId action net w =
       (Resolved tt,
        {| app := handleTaskAction_resumes cast taskId action
                    (net (request_for taskId action))
                    (fst (handleTaskAction_begins taskId action (app w)));
           sent := sent w ++ [request_for taskId action];
           shown := shown w
                    ++ [tasks (fst (handleTaskAction_begins taskId action (app w)))]
        |})) /\
  (forall s t,
     engine_available (dockerStatus s) = true ->
     In t (tasks (fst (handleTaskAction_begins taskId action s))) ->
     id t = taskId ->
     status t = STARTING /\
     start_disabled t = true /\ stop_disabled t = true /\
     check_disabled t = true) /\
  (forall answer s t,
     In t (tasks (handleTaskAction_resumes cast taskId action answer s)) ->
     id t = taskId ->
     status t <> STARTING /\
     (status t = RUNNING \/ status t = IDLE \/ status t = STOPPED)) /\
  (let s1 := fst (handleTaskAction_begins 1 start (sample_state IDLE true)) in
   let s2 := fst (handleTaskAction_begins 1 reset s1) in
   let s3 := handleTaskAction_resumes sample_cast 1 start
               (net_ok (request_for 1 start)) s2 in
   snd (handleTaskAction_begins 1 reset s1) = Some (request_for 1 reset) /\
   find_task 1 (tasks s3) = Some (sample_task_row RUNNING) /\
   stop_disabled (sample_task_row RUNNING) = false /\
   check_disabled (sample_task_row RUNNING) = false).
Proof.
  split; [|split; [|split]].
  - intros net w Hengine. unfold handleTaskAction_begins. rewrite Hengine.
    cbn [negb fst snd]. split; [reflexivity|].
    rewrite (handleTaskAction_available cast taskId action net w Hengine).
    unfold handleTaskAction_resumes. cbn. destruct action; reflexivity.
  - intros s t Hengine Hin Hid. unfold handleTaskAction_begins in Hin.
    rewrite Hengine in Hin. cbn in Hin.
    apply in_map_iff in Hin. destruct Hin as [t0 [Heq _]].
    subst t. rewrite id_mark_starting in Hid. unfold mark_starting.
    apply Z.eqb_eq in Hid. rewrite Hid. repeat split.
  - intros answer s t Hin Hid. unfold handleTaskAction_resumes in Hin. cbn in Hin.
    apply in_map_iff in Hin. destruct Hin as [t0 [Heq _]].
    subst t. rewrite id_commit in Hid. unfold commit.
    apply Z.eqb_eq in Hid. rewrite Hid. cbn.
    split; [apply newStatus_settled_not_starting|].
    pose proof (newStatus_settled_not_starting cast action answer) as Hnot.
    destruct (newStatus (settled cast action answer)); auto.
    contradiction Hnot. reflexivity.
  - cbv zeta. repeat split.
Qed.

Lemma suspended_action_disables_buttons_witness :
  engine_available (dockerStatus (sample_state IDLE true)) = true /\
  In (sample_task_row STARTING)
     (tasks (fst (handleTaskAction_begins 1 start (sample_state IDLE true)))) /\
  id (sample_task_row STARTING) = 1 /\
  start_disabled (sample_task_row STARTING) = true /\
  stop_disabled (sample_task_row STARTING) = true /\
  check_disabled (sample_task_row STARTING) = true.
Proof.
  split; [reflexivity|].
  assert (Hin : In (sample_task_row STARTING)
     (tasks (fst (handleTaskAction_begins 1 start (sample_state IDLE true)))))
    by (left; reflexivity).
  split; [exact Hin|]. split; [reflexivity|].
  exact (proj2 (proj1 (proj2 (suspended_action_disables_buttons sample_cast 1 start))
                  (sample_state IDLE true) (sample_task_row STARTING)
                  eq_refl Hin eq_refl)).
Defined.

(** ** More about the HTTP client *)

Lemma ok_is_true_iff data :
  ok_is_true data = true <->
  exists ms, data = JObject ms /\ member "ok" ms = Some (JBool true).
Proof.
  split.
  - destruct data as [| | | | |ms]; cbn; try discriminate.
    destruct (member "ok" ms) as [[|[|]| | | |]|] eqn:Hmember; try discriminate.
    intros _. exists ms. split; [reflexivity | exact Hmember].
  - intros [ms [-> Hmember]]. cbn. rewrite Hmember. reflexivity.
Qed.

Lemma succeeded_iff_grants answer : succeeded answer = true <-> grants answer.
Proof.
  unfold succeeded, grants. split.
  - destruct answer as [res|]; [|discriminate].
    destruct (json res) as [data|] eqn:Hjson; [|discriminate].
    intros H. apply andb_true_iff in H. destruct H as [Hok Hbody].
    apply ok_is_true_iff in Hbody. destruct Hbody as [ms [-> Hmember]].
    exists res, ms. repeat split; assumption.
  - intros [res [ms [-> [Hok [Hjson Hmember]]]]].
    rewrite Hjson, Hok. cbn. rewrite Hmember. reflexivity.
Qed.

(** What a lifecycle call resolves with. *)
Ltac lifecycle_outcome :=
  intros; unfold bind, fetch, res_json, ret, API, succeeded, body_of,
    request_for, action_name; cbn;
  match goal with
  | |- context [match ?net ?r with _ => _ end] =>
      destruct (net r) as [res|]; cbn; [destruct (json res); cbn|]; reflexivity
  end.

Lemma startContainer_outcome taskId net w :
  fst (startContainer taskId net w) =
    match body_of (net (request_for taskId start)) with
    | Resolved _ => Resolved (succeeded (net (request_for taskId start)))
    | Rejected => Rejected
    end.
Proof. unfold startContainer. lifecycle_outcome. Qed.

Lemma stopContainer_outcome taskId net w :
  fst (stopContainer taskId net w) =
    match body_of (net (request_for taskId stop)) with
    | Resolved _ => Resolved (succeeded (net (request_for taskId stop)))
    | Rejected => Rejected
    end.
Proof. unfold stopContainer. lifecycle_outcome. Qed.

Lemma resetContainer_outcome taskId net w :
  fst (resetContainer taskId net w) =
    match body_of (net (request_for taskId reset)) with
    | Resolved _ => Resolved (succeeded (net (request_for taskId reset)))
    | Rejected => Rejected
    end.
Proof. unfold resetContainer. lifecycle_outcome. Qed.

Lemma outcome_true_iff answer :
  match body_of answer with
  | Resolved _ => Resolved (succeeded answer)
  | Rejected => Rejected
  end = Resolved true <-> grants answer.
Proof.
  rewrite <- succeeded_iff_grants.
  destruct (body_of answer) eqn:Hbody.
  - split; [intros [= H]; exact H | intros ->; reflexivity].
  - split; [discriminate|].
    unfold succeeded, body_of in *. destruct answer as [res|]; [|discriminate].
    rewrite Hbody. discriminate.
Qed.

Lemma outcome_rejected_iff answer :
  match body_of answer with
  | Resolved _ => Resolved (succeeded answer)
  | Rejected => @Rejected bool
  end = Rejected <-> body_of answer = Rejected.
Proof.
  destruct (body_of answer); split; try discriminate; reflexivity.
Qed.

(** X11. The calls [startContainer], [stopContainer] and [resetContainer]
    resolve with [true] exactly when the response is ok and its body is an
    object whose member [ok] is the boolean [true] (so not for an HTTP error
    that says ok, a body of [null], or an [ok] that is a string or a
    number); they reject exactly when the request fails or the body is not
    JSON, and resolve with [false] in all other cases. *)
Theorem lifecycle_calls_report_success taskId net w :
  (fst (startContainer taskId net w) = Resolved true
     <-> grants (net (request_for taskId start))) /\
  (fst (startContainer taskId net w) = Rejected
     <-> body_of (net (request_for taskId start)) = Rejected) /\
  (fst (stopContainer taskId net w) = Resolved true
     <-> grants (net (request_for taskId stop))) /\
  (fst (stopContainer taskId net w) = Rejected
     <-> body_of (net (request_for taskId stop)) = Rejected) /\
  (fst (resetContainer taskId net w) = Resolved true
     <-> grants (net (request_for taskId reset))) /\
  (fst (resetContainer taskId net w) = Rejected
     <-> body_of (net (request_for taskId reset)) = Rejected).
Proof.
  rewrite startContainer_outcome, stopContainer_outcome, resetContainer_outcome.
  repeat split;
    first [apply outcome_true_iff | apply outcome_rejected_iff].
Qed.

(** Printed numbers hold no slash. *)
Lemma string_of_uint_no_slash d : no_slash (NilEmpty.string_of_uint d) = true.
Proof. induction d; cbn; auto. Qed.

Lemma number_to_string_no_slash n : no_slash (number_to_string n) = true.
Proof.
  unfold number_to_string, NilZero.string_of_int, NilZero.string_of_uint.
  destruct (Z.to_int n) as [d|d]; destruct d; cbn;
    try reflexivity; apply string_of_uint_no_slash.
Qed.

Lemma split_at_slash s1 s2 t1 t2 :
  no_slash s1 = true -> no_slash s2 = true ->
  s1 ++ String "/" t1 = s2 ++ String "/" t2 ->
  s1 = s2 /\ t1 = t2.
Proof.
  revert s2. induction s1 as [|c1 s1 IH]; intros [|c2 s2] H1 H2 Heq; cbn in *.
  - injection Heq as Heq. split; [reflexivity | exact Heq].
  - injection Heq as Hc _. subst c2. discriminate H2.
  - injection Heq as Hc _. subst c1. discriminate H1.
  - injection Heq as Hc Heq. subst c2.
    apply andb_true_iff in H1. apply andb_true_iff in H2.
    destruct (IH s2 (proj2 H1) (proj2 H2) Heq) as [-> ->].
    split; reflexivity.
Qed.

(** X12. The path of a task request determines the task and the action: two
    requests built for different task ids, or for different actions, never
    have the same URL; and no task request coincides with the engine-status
    or the task-list request. *)
Theorem request_paths_are_unambiguous :
  (forall i a j b, url (request_for i a) = url (request_for j b) ->
                   i = j /\ a = b) /\
  (forall i a, request_for i a <> status_request /\
               request_for i a <> tasks_request) /\
  status_request <> tasks_request.
Proof.
  repeat split.
  - unfold request_for in H. cbn in H. injection H as H.
    apply split_at_slash in H; try apply number_to_string_no_slash.
    apply number_to_string_inj. exact (proj1 H).
  - unfold request_for in H. cbn in H. injection H as H.
    apply split_at_slash in H; try apply number_to_string_no_slash.
    destruct H as [_ H]. destruct a, b; cbn in H; congruence.
  - discriminate.
  - discriminate.
  - discriminate.
Qed.

Lemma request_paths_are_unambiguous_witness :
  url (request_for 12 reset) = "/api/task/12/reset" /\
  forall j b, url (request_for j b) = "/api/task/12/reset" ->
              12 = j /\ reset = b.
Proof.
  split; [reflexivity|].
  intros j b H.
  apply (proj1 request_paths_are_unambiguous 12 reset j b).
  symmetry. exact H.
Defined.

(** ** More about the terminal component *)

Lemma term_do_emitted ops st :
  Terminal.emitted (Terminal.term_do ops st) = Terminal.emitted st.
Proof. unfold Terminal.term_do. destruct (Terminal.xtermRef st); reflexivity. Qed.

Lemma term_do_opened ops st :
  Terminal.opened (Terminal.term_do ops st) = Terminal.opened st.
Proof. unfold Terminal.term_do. destruct (Terminal.xtermRef st); reflexivity. Qed.

Lemma clearEffect_emitted k st :
  Terminal.emitted (Terminal.clearEffect k st) = Terminal.emitted st.
Proof.
  unfold Terminal.clearEffect. destruct (0 <? k);
    [apply term_do_emitted | reflexivity].
Qed.

Lemma clearEffect_opened k st :
  Terminal.opened (Terminal.clearEffect k st) = Terminal.opened st.
Proof.
  unfold Terminal.clearEffect. destruct (0 <? k);
    [apply term_do_opened | reflexivity].
Qed.

Lemma connectEffect_emitted t st :
  Terminal.emitted (Terminal.connectEffect t st) = Terminal.emitted st.
Proof.
  unfold Terminal.connectEffect.
  destruct t; [destruct (Terminal.is_running _)|]; reflexivity.
Qed.

Lemma connectEffect_unconnected t st :
  Terminal.socket_connected (Terminal.connectEffect t st) = false.
Proof.
  unfold Terminal.connectEffect, Terminal.socket_connected.
  destruct t; [destruct (Terminal.is_running _)|]; reflexivity.
Qed.

Lemma same_session_connected st st' :
  same_session st st' ->
  Terminal.socket_connected st' = Terminal.socket_connected st.
Proof.
  intros [Hsock _]. unfold Terminal.socket_connected. rewrite Hsock. reflexivity.
Qed.

Lemma resizeEffect_unconnected t fitted st :
  Terminal.socket_connected st = false ->
  Terminal.resizeEffect t fitted st = st.
Proof.
  intros Hoff. unfold Terminal.resizeEffect.
  destruct t; [destruct (Terminal.xtermRef st)|]; try reflexivity.
  rewrite Hoff, andb_false_r. reflexivity.
Qed.

(** After the socket effect has run, the geometry effect finds a socket
    that is not connected yet, or none. *)
Lemma fresh_socket_no_resize t k fitted st :
  Terminal.resizeEffect t fitted
    (Terminal.clearEffect k (Terminal.connectEffect t st))
  = Terminal.clearEffect k (Terminal.connectEffect t st).
Proof.
  apply resizeEffect_unconnected.
  rewrite (same_session_connected _ _ (clearEffect_same k _)).
  apply connectEffect_unconnected.
Qed.

(** What a render comes to, with the geometry effect out of the way. *)
Lemma render_unfold t k fitted st :
  Terminal.render t k fitted st =
    match Terminal.props st with
    | None =>
        Terminal.set_props (t, k)
          (Terminal.clearEffect k
             (Terminal.connectEffect t
                (Terminal.mountEffect (Terminal.set_activeTask t st))))
    | Some (oldTask, oldKey) =>
        if Terminal.deps_eqb (Terminal.deps oldTask) (Terminal.deps t)
        then Terminal.set_props (t, k)
               (if oldKey =? k then Terminal.set_activeTask t st
                else Terminal.clearEffect k (Terminal.set_activeTask t st))
        else Terminal.set_props (t, k)
               (if oldKey =? k
                then Terminal.connectEffect t
                       (Terminal.set_activeTask t (Terminal.connectCleanup st))
                else Terminal.clearEffect k
                       (Terminal.connectEffect t
                          (Terminal.set_activeTask t (Terminal.connectCleanup st))))
    end.
Proof.
  unfold Terminal.render.
  destruct (Terminal.props st) as [[oldTask oldKey]|].
  - cbv zeta.
    destruct (Terminal.deps_eqb (Terminal.deps oldTask) (Terminal.deps t));
      cbn [negb]; [reflexivity|].
    destruct (oldKey =? k).
    + rewrite resizeEffect_unconnected by apply connectEffect_unconnected.
      reflexivity.
    + rewrite fresh_socket_no_resize. reflexivity.
  - rewrite fresh_socket_no_resize. reflexivity.
Qed.

Lemma render_emitted t k fitted st :
  Terminal.emitted (Terminal.render t k fitted st) = Terminal.emitted st.
Proof.
  rewrite render_unfold.
  destruct (Terminal.props st) as [[oldTask oldKey]|]; cbn.
  - destruct (Terminal.deps_eqb _ _); destruct (oldKey =? k); cbn;
      rewrite ?clearEffect_emitted, ?connectEffect_emitted; reflexivity.
  - rewrite clearEffect_emitted, connectEffect_emitted. reflexivity.
Qed.

(** X13. A render never emits anything on the socket. In particular the
    effect that is to announce the terminal's geometry once the task runs
    never does so: whenever it runs, the socket effect has just replaced the
    socket, which is not connected yet. *)
Theorem render_never_emits t k fitted st :
  Terminal.emitted (Terminal.render t k fitted st) = Terminal.emitted st /\
  (Terminal.props st = None \/
   (exists oldTask oldKey,
      Terminal.props st = Some (oldTask, oldKey) /\
      Terminal.deps_eqb (Terminal.deps oldTask) (Terminal.deps t) = false) ->
   Terminal.socket_connected (Terminal.render t k fitted st) = false).
Proof.
  split; [apply render_emitted|].
  rewrite render_unfold.
  intros [Hfirst | [oldTask [oldKey [Hprops Hdeps]]]].
    + rewrite Hfirst. unfold Terminal.socket_connected. cbn.
      fold (Terminal.socket_connected
              (Terminal.clearEffect k
                 (Terminal.connectEffect t
                    (Terminal.mountEffect (Terminal.set_activeTask t st))))).
      rewrite (same_session_connected _ _ (clearEffect_same k _)).
      apply connectEffect_unconnected.
    + rewrite Hprops, Hdeps. unfold Terminal.socket_connected. cbn.
      destruct (oldKey =? k).
      * apply (connectEffect_unconnected t).
      * fold (Terminal.socket_connected
                (Terminal.clearEffect k
                   (Terminal.connectEffect t
                      (Terminal.set_activeTask t (Terminal.connectCleanup st))))).
        rewrite (same_session_connected _ _ (clearEffect_same k _)).
        apply connectEffect_unconnected.
Qed.

Lemma render_never_emits_witness :
  (Terminal.props (Terminal.run (sample_session STOPPED)) = None \/
   exists oldTask oldKey,
     Terminal.props (Terminal.run (sample_session STOPPED)) = Some (oldTask, oldKey) /\
     Terminal.deps_eqb (Terminal.deps oldTask)
       (Terminal.deps (Some (sample_task RUNNING))) = false) /\
  Terminal.socket_connected
    (Terminal.render (Some (sample_task RUNNING)) 1 (80, 24)
       (Terminal.run (sample_session STOPPED))) = false.
Proof.
  assert (Hchanged :
    Terminal.props (Terminal.run (sample_session STOPPED)) = None \/
    exists oldTask oldKey,
      Terminal.props (Terminal.run (sample_session STOPPED)) = Some (oldTask, oldKey) /\
      Terminal.deps_eqb (Terminal.deps oldTask)
        (Terminal.deps (Some (sample_task RUNNING))) = false).
  { right. exists (Some (sample_task STOPPED)), 0. split; reflexivity. }
  split; [exact Hchanged|].
  exact (proj2 (render_never_emits (Some (sample_task RUNNING)) 1 (80, 24)
                  (Terminal.run (sample_session STOPPED))) Hchanged).
Defined.

Lemma deps_same_running old new :
  Terminal.deps_eqb (Terminal.deps old) (Terminal.deps new) = true ->
  Terminal.is_running old = Terminal.is_running new.
Proof.
  intros Hdeps. apply deps_eqb_eq in Hdeps. destruct Hdeps as [_ Hstatus].
  destruct old, new; cbn in *; try discriminate; [|reflexivity].
  injection Hstatus as ->. reflexivity.
Qed.

Lemma connectEffect_running_socket t st :
  Terminal.is_running t = true ->
  Terminal.socketRef (Terminal.connectEffect t st) <> None.
Proof.
  intros Hrun. unfold Terminal.connectEffect.
  destruct t as [a|]; [|discriminate Hrun]. rewrite Hrun. discriminate.
Qed.

Lemma connectEffect_activeTask t st :
  Terminal.activeTaskRef (Terminal.connectEffect t st) = Terminal.activeTaskRef st.
Proof.
  unfold Terminal.connectEffect.
  destruct t; [destruct (Terminal.is_running _)|]; reflexivity.
Qed.

Lemma running_has_socket_same st st' :
  same_session st st' -> running_has_socket st -> running_has_socket st'.
Proof.
  unfold running_has_socket. intros [H1 [_ [H3 _]]]. rewrite H1, H3. tauto.
Qed.

Lemma render_running_has_socket t k fitted st :
  session_invariant st -> running_has_socket st ->
  running_has_socket (Terminal.render t k fitted st).
Proof.
  intros [_ Hfollow] Hhas. rewrite render_unfold.
  unfold ref_follows_props in Hfollow.
  assert (Hfresh : forall st0,
            Terminal.activeTaskRef st0 = t ->
            running_has_socket (Terminal.connectEffect t st0)).
  { intros st0 Href Hrun. rewrite connectEffect_activeTask, Href in Hrun.
    apply connectEffect_running_socket. exact Hrun. }
  destruct (Terminal.props st) as [[oldTask oldKey]|].
  - cbn in Hfollow.
    destruct (Terminal.deps_eqb (Terminal.deps oldTask) (Terminal.deps t)) eqn:Hdeps.
    + assert (Hkept : running_has_socket (Terminal.set_activeTask t st)).
      { intros Hrun. cbn in *. apply Hhas.
        rewrite Hfollow, (deps_same_running _ _ Hdeps). exact Hrun. }
      destruct (oldKey =? k).
      * exact Hkept.
      * intros Hrun. cbn in *.
        apply (running_has_socket_same _ _ (clearEffect_same k _) Hkept Hrun).
    + destruct (oldKey =? k).
      * apply (Hfresh (Terminal.set_activeTask t (Terminal.connectCleanup st))).
        reflexivity.
      * intros Hrun. cbn in *.
        apply (running_has_socket_same _ _ (clearEffect_same k _)
                 (Hfresh (Terminal.set_activeTask t (Terminal.connectCleanup st))
                    eq_refl) Hrun).
  - intros Hrun. cbn in *.
    apply (running_has_socket_same _ _ (clearEffect_same k _)
             (Hfresh (Terminal.mountEffect (Terminal.set_activeTask t st))
                eq_refl) Hrun).
Qed.

Lemma step_running_has_socket st e :
  session_invariant st -> running_has_socket st ->
  running_has_socket (Terminal.step st e).
Proof.
  intros Hinv Hhas. destruct e; cbn [Terminal.step].
  - apply render_running_has_socket; assumption.
  - unfold running_has_socket, Terminal.onConnect in *.
    destruct (Terminal.socketRef st) eqn:Hsock; cbn; [discriminate|].
    rewrite Hsock. exact Hhas.
  - unfold running_has_socket, Terminal.onDisconnect in *.
    destruct (Terminal.socketRef st) eqn:Hsock; cbn; [discriminate|].
    rewrite Hsock. exact Hhas.
  - exact (running_has_socket_same _ _ (onMessage_same m st) Hhas).
  - exact (running_has_socket_same _ _ (onData_same data st) Hhas).
  - exact (running_has_socket_same _ _ (handleResize_same fitted st) Hhas).
Qed.

Lemma run_running_has_socket events : running_has_socket (Terminal.run events).
Proof.
  unfold Terminal.run.
  assert (Hgen : forall st,
            session_invariant st -> running_has_socket st ->
            running_has_socket (fold_left Terminal.step events st)).
  { induction events as [|e events IH]; intros st Hinv Hhas; cbn.
    - exact Hhas.
    - apply IH; [apply step_invariant | apply step_running_has_socket]; assumption. }
  apply Hgen.
  - split; reflexivity.
  - intros Hrun. discriminate Hrun.
Qed.

(** The connected id in closed form. *)
Lemma connected_id_of_running events :
  Terminal.connectedTaskIdRef (Terminal.run events) =
    (if Terminal.is_running (Terminal.activeTaskRef (Terminal.run events))
     then option_map id (Terminal.activeTaskRef (Terminal.run events))
     else None).
Proof.
  pose proof (run_invariant events) as Hinv.
  pose proof (run_running_has_socket events) as Hhas.
  destruct (Terminal.is_running (Terminal.activeTaskRef (Terminal.run events)))
    eqn:Hrun.
  - specialize (Hhas Hrun).
    destruct Hinv as [Hmatch _]. unfold socket_matches_task in Hmatch.
    destruct (Terminal.socketRef (Terminal.run events)) as [s|]; [|contradiction].
    destruct Hmatch as [Hconn [a [Ha [_ Hid]]]].
    rewrite Hconn, Ha. cbn. rewrite Hid. reflexivity.
  - exact (proj2 (not_running_no_socket _ Hinv Hrun)).
Qed.

(** X14. In every state that the terminal component reaches, there is a
    socket exactly when the active task is Running, and the connected task
    id is the id of that task, or null when there is none or it is not
    Running: the terminal connects by itself as soon as the selected task
    runs and drops the connection as soon as it does not. *)
Theorem socket_exactly_when_running events :
  let st := Terminal.run events in
  (Terminal.socketRef st <> None
     <-> Terminal.is_running (Terminal.activeTaskRef st) = true) /\
  Terminal.connectedTaskIdRef st =
    (if Terminal.is_running (Terminal.activeTaskRef st)
     then option_map id (Terminal.activeTaskRef st)
     else None).
Proof.
  cbv zeta. split; [|apply connected_id_of_running].
  pose proof (run_invariant events) as Hinv.
  pose proof (run_running_has_socket events) as Hhas.
  split.
  - intros Hsock.
    destruct (Terminal.is_running (Terminal.activeTaskRef (Terminal.run events)))
      eqn:Hrun; [reflexivity|].
    contradiction Hsock. exact (proj1 (not_running_no_socket _ Hinv Hrun)).
  - exact Hhas.
Qed.

Lemma connect_comes_first_snoc l m :
  connect_comes_first l ->
  In (Terminal.terminal_connect (message_taskId m)) (l ++ [m]) ->
  connect_comes_first (l ++ [m]).
Proof.
  intros Hl Hm pre m' post Heq.
  destruct (exists_last (l := m' :: post) ltac:(discriminate)) as [body [x Hlast]].
  assert (Hsplit : (l ++ [m])%list = ((pre ++ body) ++ [x])%list).
  { rewrite Heq, <- app_assoc. f_equal. exact Hlast. }
  apply app_inj_tail in Hsplit. destruct Hsplit as [Hl' Hx]. subst x.
  destruct body as [|b body].
  - cbn in Hlast. injection Hlast as -> ->.
    rewrite app_nil_r in Hl'. subst l. exact Hm.
  - cbn in Hlast. injection Hlast as <- Hpost.
    apply (Hl pre m' body). exact Hl'.
Qed.

Lemma onData_emitted data st :
  Terminal.emitted (Terminal.onData data st) = Terminal.emitted st \/
  exists t,
    Terminal.socket_connected st = true /\
    Terminal.connected_to (id t) st = true /\
    Terminal.emitted (Terminal.onData data st)
      = (Terminal.emitted st ++ [Terminal.terminal_input (id t) data])%list.
Proof.
  unfold Terminal.onData.
  destruct (Terminal.xtermRef st) eqn:Hterm; [|left; reflexivity].
  destruct (Terminal.activeTaskRef st) as [t|];
    [|left; unfold Terminal.term_do; rewrite Hterm; reflexivity].
  destruct (TaskStatus_eqb (status t) RUNNING);
    [|left; unfold Terminal.term_do; rewrite Hterm; reflexivity].
  destruct (Terminal.socket_connected st && Terminal.connected_to (id t) st)
    eqn:Hgo; [|left; unfold Terminal.term_do; rewrite Hterm; reflexivity].
  apply andb_true_iff in Hgo. right. exists t. repeat split; tauto.
Qed.

Lemma handleResize_emitted fitted st :
  Terminal.emitted (Terminal.handleResize fitted st) = Terminal.emitted st \/
  exists i,
    Terminal.socket_connected st = true /\
    Terminal.connectedTaskIdRef st = Some i /\
    Terminal.emitted (Terminal.handleResize fitted st)
      = (Terminal.emitted st
           ++ [Terminal.terminal_resize i (fst fitted) (snd fitted)])%list.
Proof.
  unfold Terminal.handleResize.
  destruct (Terminal.xtermRef st); [|left; reflexivity].
  destruct (Terminal.connectedTaskIdRef st) as [i|]; [|left; reflexivity].
  destruct (Terminal.socket_connected st) eqn:Hgo; [|left; reflexivity].
  right. exists i. repeat split.
Qed.

(** A connected socket, in a state that satisfies the invariant, has
    announced the task of the connected id. *)
Lemma announced_connected_id st i :
  session_invariant st -> connected_was_announced st ->
  Terminal.socket_connected st = true ->
  Terminal.connectedTaskIdRef st = Some i ->
  In (Terminal.terminal_connect i) (Terminal.emitted st).
Proof.
  intros [Hmatch _] Hann Hconn Hid.
  unfold socket_matches_task, Terminal.socket_connected in *.
  destruct (Terminal.socketRef st) as [s|] eqn:Hsock; [|discriminate Hconn].
  destruct Hmatch as [Hsame _]. rewrite Hsame in Hid. injection Hid as <-.
  apply (Hann s); [exact Hsock | exact Hconn].
Qed.

Lemma announced_same st st' :
  same_session st st' ->
  (forall m, In m (Terminal.emitted st) -> In m (Terminal.emitted st')) ->
  connected_was_announced st -> connected_was_announced st'.
Proof.
  intros [Hsock _] Hgrow Hann s Hs Hconn.
  apply Hgrow. apply (Hann s); [rewrite <- Hsock; exact Hs | exact Hconn].
Qed.

Lemma render_announced t k fitted st :
  connected_was_announced st ->
  connected_was_announced (Terminal.render t k fitted st).
Proof.
  intros Hann s Hs Hconn.
  rewrite render_emitted.
  rewrite render_unfold in Hs.
  assert (Hfresh : forall st0 st1,
            same_session (Terminal.connectEffect t st0) st1 ->
            Terminal.socketRef st1 = Some s -> False).
  { intros st0 st1 Hsame Hs1.
    pose proof (same_session_connected _ _ Hsame) as Hc.
    rewrite connectEffect_unconnected in Hc.
    unfold Terminal.socket_connected in Hc. rewrite Hs1, Hconn in Hc.
    discriminate Hc. }
  destruct (Terminal.props st) as [[oldTask oldKey]|].
  - destruct (Terminal.deps_eqb (Terminal.deps oldTask) (Terminal.deps t)).
    + apply (Hann s); [|exact Hconn].
      destruct (oldKey =? k); cbn in Hs; [exact Hs|].
      destruct (clearEffect_same k (Terminal.set_activeTask t st)) as [Hsock _].
      rewrite Hsock in Hs. exact Hs.
    + exfalso. destruct (oldKey =? k); cbn in Hs.
      * exact (Hfresh _ _ (same_session_refl _) Hs).
      * exact (Hfresh _ _ (clearEffect_same k _) Hs).
  - exfalso. cbn in Hs. exact (Hfresh _ _ (clearEffect_same k _) Hs).
Qed.

Lemma step_protocol st e :
  session_invariant st ->
  connected_was_announced st /\ connect_comes_first (Terminal.emitted st) ->
  connected_was_announced (Terminal.step st e) /\
  connect_comes_first (Terminal.emitted (Terminal.step st e)).
Proof.
  intros Hinv [Hann Hfirst].
  destruct e as [t k fitted | | | m | data | fitted]; cbn [Terminal.step].
  - split; [apply render_announced; exact Hann|].
    rewrite render_emitted.
    exact Hfirst.
  - unfold Terminal.onConnect.
    destruct (Terminal.socketRef st) as [s|] eqn:Hsock; [|split; assumption].
    split.
    + intros s' Hs' _. cbn in *. injection Hs' as <-. cbn.
      apply in_or_app. right. left. reflexivity.
    + cbn. apply connect_comes_first_snoc; [exact Hfirst|].
      apply in_or_app. right. left. reflexivity.
  - unfold Terminal.onDisconnect.
    destruct (Terminal.socketRef st) as [s|] eqn:Hsock; [|split; assumption].
    split; [|exact Hfirst].
    intros s' Hs' Hconn. cbn in Hs'. injection Hs' as <-. discriminate Hconn.
  - split.
    + apply (announced_same _ _ (onMessage_same m st)); [|exact Hann].
      unfold Terminal.onMessage.
      destruct (Terminal.socketRef st); [|tauto].
      destruct (_ =? _); [|tauto].
      destruct m; rewrite term_do_emitted; tauto.
    + unfold Terminal.onMessage.
      destruct (Terminal.socketRef st); [|exact Hfirst].
      destruct (_ =? _); [|exact Hfirst].
      destruct m; rewrite term_do_emitted; exact Hfirst.
  - destruct (onData_emitted data st) as [Hsame | [t [Hconn [Hto Hemit]]]].
    + rewrite Hsame. split; [|exact Hfirst].
      apply (announced_same _ _ (onData_same data st)); [|exact Hann].
      rewrite Hsame. tauto.
    + rewrite Hemit. split.
      * apply (announced_same _ _ (onData_same data st)); [|exact Hann].
        rewrite Hemit. intros m Hm. apply in_or_app. left. exact Hm.
      * apply connect_comes_first_snoc; [exact Hfirst|].
        apply in_or_app. left. cbn.
        apply (announced_connected_id st (id t) Hinv Hann Hconn).
        unfold Terminal.connected_to in Hto.
        destruct (Terminal.connectedTaskIdRef st) as [j|]; [|discriminate Hto].
        apply Z.eqb_eq in Hto. rewrite Hto. reflexivity.
  - destruct (handleResize_emitted fitted st) as [Hsame | [i [Hconn [Hid Hemit]]]].
    + rewrite Hsame. split; [|exact Hfirst].
      apply (announced_same _ _ (handleResize_same fitted st)); [|exact Hann].
      rewrite Hsame. tauto.
    + rewrite Hemit. split.
      * apply (announced_same _ _ (handleResize_same fitted st)); [|exact Hann].
        rewrite Hemit. intros m Hm. apply in_or_app. left. exact Hm.
      * apply connect_comes_first_snoc; [exact Hfirst|].
        apply in_or_app. left. cbn.
        exact (announced_connected_id st i Hinv Hann Hconn Hid).
Qed.

(** X15. The client keeps the order of the protocol: in everything it has
    emitted, in any reachable state, each [terminal:input] and each
    [terminal:resize] for a task comes after a [terminal:connect] for that
    same task; input or geometry is never sent for a task that was not
    announced first. *)
Theorem client_announces_before_it_sends events :
  connect_comes_first (Terminal.emitted (Terminal.run events)).
Proof.
  unfold Terminal.run.
  assert (Hgen : forall st,
            session_invariant st ->
            connected_was_announced st /\ connect_comes_first (Terminal.emitted st) ->
            connect_comes_first (Terminal.emitted (fold_left Terminal.step events st))).
  { induction events as [|e events IH]; intros st Hinv Hproto; cbn.
    - exact (proj2 Hproto).
    - apply IH; [apply step_invariant; exact Hinv
                | apply step_protocol; assumption]. }
  apply Hgen.
  - split; reflexivity.
  - split.
    + intros s Hs. discriminate Hs.
    + intros pre m post Heq. cbn in Heq. destruct pre; discriminate Heq.
Qed.

(** ** The page and its terminal together *)

Lemma find_task_map f i l :
  (forall t, id (f t) = id t) ->
  find_task i (map f l) = option_map f (find_task i l).
Proof.
  intros Hid. unfold find_task. induction l as [|t l IH]; cbn; [reflexivity|].
  rewrite Hid. destruct (id t =? i); [reflexivity | exact IH].
Qed.

Lemma find_task_id i l t : find_task i l = Some t -> id t = i.
Proof.
  unfold find_task. intros Hfind. apply find_some in Hfind.
  apply Z.eqb_eq. exact (proj2 Hfind).
Qed.

Lemma connectEffect_xterm t st :
  Terminal.xtermRef (Terminal.connectEffect t st) = Terminal.xtermRef st.
Proof.
  unfold Terminal.connectEffect.
  destruct t; [destruct (Terminal.is_running _)|]; reflexivity.
Qed.

(** A render that takes the active task out of Running closes the socket;
    one that brings it into Running opens a fresh one. *)
Lemma render_leaving_running a k fitted st new :
  Terminal.props st = Some (Some a, k) ->
  status a = RUNNING -> status new <> RUNNING -> id new = id a ->
  Terminal.socketRef (Terminal.render (Some new) k fitted st) = None /\
  Terminal.connectedTaskIdRef (Terminal.render (Some new) k fitted st) = None /\
  Terminal.opened (Terminal.render (Some new) k fitted st) = Terminal.opened st /\
  Terminal.props (Terminal.render (Some new) k fitted st) = Some (Some new, k).
Proof.
  intros Hprops Hrun Hnot Hid. rewrite render_unfold, Hprops.
  assert (Hdeps : Terminal.deps_eqb (Terminal.deps (Some a))
                    (Terminal.deps (Some new)) = false).
  { unfold Terminal.deps_eqb, Terminal.deps. cbn. rewrite Hrun.
    destruct (status new); try contradiction; cbn; apply andb_false_r. }
  rewrite Hdeps, Z.eqb_refl.
  assert (Hidle : Terminal.is_running (Some new) = false).
  { cbn. destruct (status new); try reflexivity. contradiction. }
  unfold Terminal.connectEffect. rewrite Hidle. repeat split.
Qed.

Lemma render_entering_running old k fitted st new :
  Terminal.props st = Some (Some old, k) ->
  status old <> RUNNING -> status new = RUNNING ->
  Terminal.socketRef (Terminal.render (Some new) k fitted st)
    = Some {| Terminal.connected := false; Terminal.taskId := id new |} /\
  Terminal.connectedTaskIdRef (Terminal.render (Some new) k fitted st)
    = Some (id new) /\
  Terminal.opened (Terminal.render (Some new) k fitted st) = S (Terminal.opened st).
Proof.
  intros Hprops Hnot Hrun. rewrite render_unfold, Hprops.
  assert (Hdeps : Terminal.deps_eqb (Terminal.deps (Some old))
                    (Terminal.deps (Some new)) = false).
  { unfold Terminal.deps_eqb, Terminal.deps. cbn. rewrite Hrun.
    destruct (status old); try contradiction; cbn; apply andb_false_r. }
  rewrite Hdeps, Z.eqb_refl.
  assert (Hgo : Terminal.is_running (Some new) = true)
    by (cbn; rewrite Hrun; reflexivity).
  unfold Terminal.connectEffect. rewrite Hgo. repeat split.
Qed.

Lemma render_leaving_running_from_starting a k fitted st new :
  Terminal.props st = Some (Some (with_status STARTING a), k) ->
  status new = IDLE ->
  Terminal.socketRef (Terminal.render (Some new) k fitted st) = None /\
  Terminal.opened (Terminal.render (Some new) k fitted st) = Terminal.opened st.
Proof.
  intros Hprops Hidle. rewrite render_unfold, Hprops.
  assert (Hdeps : Terminal.deps_eqb (Terminal.deps (Some (with_status STARTING a)))
                    (Terminal.deps (Some new)) = false).
  { unfold Terminal.deps_eqb, Terminal.deps. cbn. rewrite Hidle.
    cbn. apply andb_false_r. }
  rewrite Hdeps, Z.eqb_refl.
  unfold Terminal.connectEffect, Terminal.is_running. rewrite Hidle.
  split; reflexivity.
Qed.

(** X16. Verifying the selected task interrupts its terminal. Take a page
    whose selected task is Running and a terminal that was rendered with
    it. When a check is run on that task, the render of the pending state
    closes the socket, since the task is shown as Starting; the render of
    the final state opens a new socket, still unconnected, for the same task
    when the check came back with a JSON body, and leaves the terminal
    without a socket when it did not. *)
Theorem check_interrupts_terminal cast taskId net w a st fitted1 fitted2 :
  engine_available (dockerStatus (app w)) = true ->
  activeTaskId (app w) = Some taskId ->
  activeTask (app w) = Some a ->
  status a = RUNNING ->
  Terminal.props st = Some (terminal_props (app w)) ->
  let w' := snd (handleTaskAction cast taskId check net w) in
  exists pending,
    shown w' = (shown w ++ [pending])%list /\
    let st1 := Terminal.render (find_task taskId pending)
                 (terminalClearKey (app w)) fitted1 st in
    let st2 := Terminal.render (activeTask (app w'))
                 (terminalClearKey (app w')) fitted2 st1 in
    Terminal.socketRef st1 = None /\
    match body_of (net (request_for taskId check)) with
    | Resolved _ =>
        Terminal.socketRef st2
          = Some {| Terminal.connected := false; Terminal.taskId := taskId |} /\
        Terminal.opened st2 = S (Terminal.opened st)
    | Rejected =>
        Terminal.socketRef st2 = None /\
        Terminal.opened st2 = Terminal.opened st
    end.
Proof.
  intros Hengine Hsel Hactive Hrun Hprops. cbv zeta.
  unfold terminal_props in Hprops. rewrite Hactive in Hprops.
  unfold activeTask in Hactive. rewrite Hsel in Hactive.
  pose proof (find_task_id _ _ _ Hactive) as Hid.
  set (l := settled cast check (net (request_for taskId check))).
  set (k := terminalClearKey (app w)) in *.
  assert (Hshown : shown (snd (handleTaskAction cast taskId check net w))
                   = (shown w ++ [map (mark_starting taskId) (tasks (app w))])%list).
  { rewrite (handleTaskAction_available cast taskId check net w Hengine).
    reflexivity. }
  assert (Hpending : find_task taskId (map (mark_starting taskId) (tasks (app w)))
                     = Some (with_status STARTING a)).
  { rewrite find_task_map, Hactive by apply id_mark_starting. cbn.
    unfold mark_starting. apply Z.eqb_eq in Hid. rewrite Hid. reflexivity. }
  assert (Hfinal : activeTask (app (snd (handleTaskAction cast taskId check net w)))
                   = Some (with_status_lastCheck (newStatus l)
                             (or_else (checkResult l) (lastCheck a)) a)).
  { unfold activeTask.
    destruct (handleTaskAction_other_cells cast taskId check net w) as [Hsame _].
    rewrite Hsame, Hsel.
    rewrite (handleTaskAction_tasks cast taskId check net w Hengine).
    rewrite find_task_map, Hactive by (intros t; apply id_commit). cbn.
    unfold commit. apply Z.eqb_eq in Hid. rewrite Hid. reflexivity. }
  assert (Hkey : terminalClearKey (app (snd (handleTaskAction cast taskId check net w)))
                 = k).
  { rewrite handleTaskAction_clear_key, Hengine. unfold k. lia. }
  exists (map (mark_starting taskId) (tasks (app w))).
  split; [exact Hshown|].
  rewrite Hpending, Hfinal, Hkey.
  destruct (render_leaving_running a k fitted1 st (with_status STARTING a)
              Hprops Hrun ltac:(discriminate) eq_refl)
    as [Hsock1 [_ [Hopen1 Hprops1]]].
  split; [exact Hsock1|].
  unfold l, settled, body_of.
  destruct (net (request_for taskId check)) as [res|];
    [destruct (json res) as [data|]|]; cbn [newStatus checkResult untouched].
  - destruct (render_entering_running (with_status STARTING a) k fitted2 _
                (with_status_lastCheck RUNNING
                   (or_else (if js_truthy data then Some (cast data) else None)
                      (lastCheck a)) a)
                Hprops1 ltac:(discriminate) eq_refl)
      as [Hsock2 [_ Hopen2]].
    cbn in Hsock2. rewrite Hid in Hsock2. rewrite Hopen1 in Hopen2.
    split; assumption.
  - destruct (render_leaving_running_from_starting a k fitted2 _
                (with_status_lastCheck IDLE (or_else None (lastCheck a)) a)
                Hprops1 eq_refl)
      as [Hsock2 Hopen2].
    rewrite Hopen1 in Hopen2. split; assumption.
  - destruct (render_leaving_running_from_starting a k fitted2 _
                (with_status_lastCheck IDLE (or_else None (lastCheck a)) a)
                Hprops1 eq_refl)
      as [Hsock2 Hopen2].
    rewrite Hopen1 in Hopen2. split; assumption.
Qed.

Lemma check_interrupts_terminal_witness :
  engine_available (dockerStatus (app (world_of (sample_state RUNNING true)))) = true /\
  activeTaskId (app (world_of (sample_state RUNNING true))) = Some 1 /\
  activeTask (app (world_of (sample_state RUNNING true)))
    = Some (sample_task_row RUNNING) /\
  status (sample_task_row RUNNING) = RUNNING /\
  Terminal.props (sample_terminal RUNNING true)
    = Some (terminal_props (app (world_of (sample_state RUNNING true)))) /\
  Terminal.socket_connected (sample_terminal RUNNING true) = true /\
  exists pending,
    shown (snd (handleTaskAction sample_cast 1 check net_ok
                  (world_of (sample_state RUNNING true)))) = [pending] /\
    Terminal.socketRef
      (Terminal.render (find_task 1 pending) 0 (80, 24)
         (sample_terminal RUNNING true)) = None.
Proof.
  split; [reflexivity|]. split; [reflexivity|]. split; [reflexivity|].
  split; [reflexivity|]. split; [reflexivity|]. split; [reflexivity|].
  destruct (check_interrupts_terminal sample_cast 1 net_ok
              (world_of (sample_state RUNNING true)) (sample_task_row RUNNING)
              (sample_terminal RUNNING true) (80, 24) (80, 24)
              eq_refl eq_refl eq_refl eq_refl eq_refl)
    as [pending [Hshown [Hsock _]]].
  exists pending. split; [exact Hshown | exact Hsock].
Defined.

Lemma own_output_fold s datas :
  forall st screen,
    Terminal.socketRef st = Some s ->
    Terminal.xtermRef st = Some screen ->
    Terminal.xtermRef
      (fold_left Terminal.step
         (map (fun d => Terminal.Message
                          (Terminal.terminal_output (Terminal.taskId s) d)) datas) st)
    = Some (screen ++ map Terminal.Write datas)%list /\
    Terminal.emitted
      (fold_left Terminal.step
         (map (fun d => Terminal.Message
                          (Terminal.terminal_output (Terminal.taskId s) d)) datas) st)
    = Terminal.emitted st /\
    Terminal.socketRef
      (fold_left Terminal.step
         (map (fun d => Terminal.Message
                          (Terminal.terminal_output (Terminal.taskId s) d)) datas) st)
    = Some s.
Proof.
  induction datas as [|d datas IH]; intros st screen Hsock Hterm; cbn.
  - rewrite app_nil_r. repeat split; assumption.
  - assert (Hstep : Terminal.onMessage
                      (Terminal.terminal_output (Terminal.taskId s) d) st
                    = Terminal.set_xterm
                        (Some (screen ++ [Terminal.Write d])%list) st).
    { unfold Terminal.onMessage. rewrite Hsock. cbn.
      rewrite Z.eqb_refl. unfold Terminal.term_do. rewrite Hterm. reflexivity. }
    rewrite Hstep.
    destruct (IH (Terminal.set_xterm (Some (screen ++ [Terminal.Write d])%list) st)
                (screen ++ [Terminal.Write d])%list Hsock eq_refl)
      as [Hx [He Hs]].
    rewrite Hx, He, Hs. rewrite <- app_assoc. repeat split.
Qed.

(** X17. Output for the connected task reaches the display verbatim and in
    order: when a terminal with a socket and a mounted display receives a
    run of [terminal:output] events for the socket's task, the display
    gains exactly one write per event, with the data as received and in the
    order received; nothing is emitted and the socket stays. *)
Theorem own_output_is_written_in_order events s screen datas :
  Terminal.socketRef (Terminal.run events) = Some s ->
  Terminal.xtermRef (Terminal.run events) = Some screen ->
  let st' := Terminal.run
               (events ++ map (fun d => Terminal.Message
                                          (Terminal.terminal_output
                                             (Terminal.taskId s) d)) datas) in
  Terminal.xtermRef st' = Some (screen ++ map Terminal.Write datas)%list /\
  Terminal.emitted st' = Terminal.emitted (Terminal.run events) /\
  Terminal.socketRef st' = Some s.
Proof.
  intros Hsock Hterm. cbv zeta. unfold Terminal.run in *.
  rewrite fold_left_app. apply own_output_fold; assumption.
Qed.

Lemma own_output_is_written_in_order_witness :
  Terminal.socketRef (Terminal.run (sample_session RUNNING))
    = Some {| Terminal.connected := true; Terminal.taskId := 1 |} /\
  Terminal.xtermRef (Terminal.run (sample_session RUNNING)) = Some Terminal.banner /\
  Terminal.xtermRef
    (Terminal.run (sample_session RUNNING
                   ++ [Terminal.Message (Terminal.terminal_output 1 "total 0");
                       Terminal.Message (Terminal.terminal_output 1 prompt_sample)]))
  = Some (Terminal.banner
          ++ [Terminal.Write "total 0"; Terminal.Write prompt_sample])%list.
Proof.
  split; [reflexivity|]. split; [reflexivity|].
  exact (proj1 (own_output_is_written_in_order (sample_session RUNNING)
                  {| Terminal.connected := true; Terminal.taskId := 1 |}
                  Terminal.banner ["total 0"; prompt_sample] eq_refl eq_refl)).
Defined.

(** X18. A start, stop or reset that passes the engine gate clears the
    terminal: when the terminal was rendered with the clear key the page had
    (which is never negative, as it starts at 0 and only goes up), its next
    render, with the key the action leaves, appends a clear and the banner
    to the display, whatever the active task. After a check the key is the
    same and a render leaves the display as it is. *)
Theorem lifecycle_action_clears_terminal cast taskId action net w st t t' screen fitted :
  engine_available (dockerStatus (app w)) = true ->
  0 <= terminalClearKey (app w) ->
  Terminal.props st = Some (t, terminalClearKey (app w)) ->
  Terminal.xtermRef st = Some screen ->
  let w' := snd (handleTaskAction cast taskId action net w) in
  Terminal.xtermRef (Terminal.render t' (terminalClearKey (app w')) fitted st) =
    match action with
    | check => Some screen
    | _ => Some (screen ++ Terminal.Clear :: Terminal.banner)%list
    end.
Proof.
  intros Hengine Hkey Hprops Hterm. cbv zeta.
  rewrite handleTaskAction_clear_key, Hengine, render_unfold, Hprops.
  set (k := terminalClearKey (app w)) in *.
  assert (Hcleared : forall st0,
            Terminal.xtermRef st0 = Some screen ->
            Terminal.xtermRef (Terminal.clearEffect (k + 1) st0)
            = Some (screen ++ Terminal.Clear :: Terminal.banner)%list).
  { intros st0 H0. unfold Terminal.clearEffect.
    replace (0 <? k + 1) with true by (symmetry; apply Z.ltb_lt; lia).
    unfold Terminal.term_do. rewrite H0. reflexivity. }
  destruct action;
    try (replace (k =? k + 1) with false by (symmetry; apply Z.eqb_neq; lia);
         destruct (Terminal.deps_eqb (Terminal.deps t) (Terminal.deps t')); cbn;
         apply Hcleared; rewrite ?connectEffect_xterm; exact Hterm).
  replace (k + 0) with k by lia. rewrite Z.eqb_refl.
  destruct (Terminal.deps_eqb (Terminal.deps t) (Terminal.deps t')); cbn;
    rewrite ?connectEffect_xterm; exact Hterm.
Qed.

Lemma lifecycle_action_clears_terminal_witness :
  engine_available (dockerStatus (app (world_of (sample_state RUNNING true)))) = true /\
  0 <= terminalClearKey (app (world_of (sample_state RUNNING true))) /\
  Terminal.props (sample_terminal RUNNING true)
    = Some (activeTask (sample_state RUNNING true),
            terminalClearKey (app (world_of (sample_state RUNNING true)))) /\
  Terminal.xtermRef (sample_terminal RUNNING true) = Some Terminal.banner /\
  Terminal.xtermRef
    (Terminal.render (Some (sample_task_row STOPPED))
       (terminalClearKey
          (app (snd (handleTaskAction sample_cast 1 stop net_ok
                       (world_of (sample_state RUNNING true))))))
       (80, 24) (sample_terminal RUNNING true))
  = Some (Terminal.banner ++ Terminal.Clear :: Terminal.banner)%list.
Proof.
  split; [reflexivity|]. split; [discriminate|]. split; [reflexivity|].
  split; [reflexivity|].
  exact (lifecycle_action_clears_terminal sample_cast 1 stop net_ok
           (world_of (sample_state RUNNING true)) (sample_terminal RUNNING true)
           (activeTask (sample_state RUNNING true)) (Some (sample_task_row STOPPED))
           Terminal.banner (80, 24) eq_refl ltac:(discriminate) eq_refl eq_refl).
Defined.

(** ** What the page shows *)

(** X19. The registry panel shows every task exactly once: for any task
    list, the items under the NODE1 header followed by those under the NODE2
    header are a rearrangement of the list. For the catalog the panel keeps
    the catalog's order, and the counts that the two headers display, 14 and
    6, are the numbers of tasks listed under them. *)
Theorem task_panel_shows_every_task_once :
  (forall ts, Permutation (task_panel ts) ts) /\
  task_panel INITIAL_TASKS = INITIAL_TASKS /\
  (forall g,
     List.length (filter (fun t => NodeGroup_eqb (node t) g) INITIAL_TASKS)
     = header_count g).
Proof.
  split; [|split; [reflexivity | intros g; destruct g; reflexivity]].
  intros ts. unfold task_panel.
  induction ts as [|t ts IH]; cbn; [constructor|].
  destruct (node t); cbn.
  - constructor. exact IH.
  - apply Permutation_sym, Permutation_cons_app, Permutation_sym. exact IH.
Qed.

(** X20. Toggling a panel flips the flag of that panel and no other;
    toggling it twice restores the panel state, and toggles of two panels
    can be made in either order. *)
Theorem togglePanel_flips_one_flag panel other prev :
  Panels.get panel (Panels.togglePanel panel prev) = negb (Panels.get panel prev) /\
  (other <> panel ->
   Panels.get other (Panels.togglePanel panel prev) = Panels.get other prev) /\
  Panels.togglePanel panel (Panels.togglePanel panel prev) = prev /\
  Panels.togglePanel panel (Panels.togglePanel other prev)
    = Panels.togglePanel other (Panels.togglePanel panel prev).
Proof.
  destruct prev as [a b c d].
  destruct panel, other; cbn; rewrite ?negb_involutive;
    repeat split; try reflexivity; intros H; contradiction H; reflexivity.
Qed.

Lemma togglePanel_flips_one_flag_witness :
  Panels.results_key <> Panels.terminal_key /\
  Panels.get Panels.results_key
    (Panels.togglePanel Panels.terminal_key Panels.default) = true /\
  Panels.get Panels.terminal_key
    (Panels.togglePanel Panels.terminal_key Panels.default) = false.
Proof.
  split; [discriminate|].
  destruct (togglePanel_flips_one_flag Panels.terminal_key Panels.results_key
              Panels.default) as [Hflip [Hkeep _]].
  split; [exact (Hkeep ltac:(discriminate)) | exact Hflip].
Defined.

Lemma two_digit_label (n : nat) :
  (n < 100)%nat ->
  String.length (if Z.of_nat n <? 10 then "0" ++ number_to_string (Z.of_nat n)
                 else number_to_string (Z.of_nat n)) = 2%nat.
Proof.
  intros Hn.
  do 100 (destruct n as [|n]; [reflexivity|]).
  lia.
Qed.

(** X21. The badge of a task item has exactly two characters for every id
    from 0 to 99: ids below 10 are padded with one zero, the others are
    printed as they are. *)
Theorem id_label_has_two_digits t :
  0 <= id t <= 99 ->
  String.length (id_label t) = 2%nat /\
  (id t < 10 -> id_label t = "0" ++ number_to_string (id t)) /\
  (10 <= id t -> id_label t = number_to_string (id t)).
Proof.
  intros Hrange. unfold id_label. repeat split.
  - rewrite <- (Z2Nat.id (id t)) by lia. apply two_digit_label. lia.
  - intros Hlow. apply Z.ltb_lt in Hlow. rewrite Hlow. reflexivity.
  - intros Hhigh. apply Z.ltb_ge in Hhigh. rewrite Hhigh. reflexivity.
Qed.

Lemma id_label_has_two_digits_witness :
  0 <= id (sample_task_row IDLE) <= 99 /\
  String.length (id_label (sample_task_row IDLE)) = 2%nat /\
  id_label (sample_task_row IDLE) = "01".
Proof.
  split; [cbn; lia|].
  destruct (id_label_has_two_digits (sample_task_row IDLE) ltac:(cbn; lia))
    as [Hlen [Hlow _]].
  split; [exact Hlen|]. exact (Hlow eq_refl).
Defined.

(** X22. A keystroke is either forwarded or answered, never both and never
    neither: in a reachable state with the display mounted, typed data is
    emitted as one [terminal:input] for the active task, leaving the
    display alone, exactly when that task is Running and the socket is
    connected; otherwise nothing is emitted and the display gains one notice
    ("Connecting..." while the task runs but the socket is not connected
    yet, "Terminal inactive" when the task does not run), so what is typed
    in the meantime is dropped. *)
Theorem keystroke_is_forwarded_or_answered events data screen :
  let st := Terminal.run events in
  Terminal.xtermRef st = Some screen ->
  (Terminal.is_running (Terminal.activeTaskRef st) = true ->
   Terminal.socket_connected st = true ->
   exists a, Terminal.activeTaskRef st = Some a /\
     Terminal.emitted (Terminal.step st (Terminal.Data data))
       = (Terminal.emitted st ++ [Terminal.terminal_input (id a) data])%list /\
     Terminal.xtermRef (Terminal.step st (Terminal.Data data)) = Some screen) /\
  (Terminal.is_running (Terminal.activeTaskRef st) = false \/
   Terminal.socket_connected st = false ->
   Terminal.emitted (Terminal.step st (Terminal.Data data)) = Terminal.emitted st /\
   exists notice,
     Terminal.xtermRef (Terminal.step st (Terminal.Data data))
       = Some (screen ++ [Terminal.Writeln notice])%list).
Proof.
  cbv zeta. intros Hterm.
  pose proof (connected_id_of_running events) as Hconn.
  cbn [Terminal.step]. unfold Terminal.onData. rewrite Hterm.
  split.
  - intros Hrun Hsock. rewrite Hrun in Hconn.
    destruct (Terminal.activeTaskRef (Terminal.run events)) as [a|];
      [|discriminate Hrun].
    cbn in Hrun. rewrite Hrun. cbn in Hconn.
    unfold Terminal.connected_to. rewrite Hconn, Z.eqb_refl, Hsock. cbn.
    exists a. repeat split. exact Hterm.
  - intros Hcase.
    destruct (Terminal.activeTaskRef (Terminal.run events)) as [a|].
    + cbn in Hcase.
      destruct (TaskStatus_eqb (status a) RUNNING).
      * destruct Hcase as [Hcase | Hcase]; [discriminate Hcase|].
        rewrite Hcase. cbn. unfold Terminal.term_do. rewrite Hterm. cbn.
        split; [reflexivity|]. eexists. reflexivity.
      * unfold Terminal.term_do. rewrite Hterm. cbn.
        split; [reflexivity|]. eexists. reflexivity.
    + unfold Terminal.term_do. rewrite Hterm. cbn.
      split; [reflexivity|]. eexists. reflexivity.
Qed.

Lemma keystroke_is_forwarded_or_answered_witness :
  Terminal.xtermRef (Terminal.run (sample_session RUNNING)) = Some Terminal.banner /\
  Terminal.is_running (Terminal.activeTaskRef (Terminal.run (sample_session RUNNING)))
    = true /\
  Terminal.socket_connected (Terminal.run (sample_session RUNNING)) = true /\
  exists a,
    Terminal.activeTaskRef (Terminal.run (sample_session RUNNING)) = Some a /\
    Terminal.emitted (Terminal.step (Terminal.run (sample_session RUNNING))
                        (Terminal.Data "ls"))
    = (Terminal.emitted (Terminal.run (sample_session RUNNING))
       ++ [Terminal.terminal_input (id a) "ls"])%list /\
    Terminal.xtermRef (Terminal.step (Terminal.run (sample_session RUNNING))
                         (Terminal.Data "ls")) = Some Terminal.banner.
Proof.
  split; [reflexivity|]. split; [reflexivity|]. split; [reflexivity|].
  exact (proj1 (keystroke_is_forwarded_or_answered (sample_session RUNNING) "ls"
                  Terminal.banner eq_refl) eq_refl eq_refl).
Defined.
